(** * The Textpresso query reformatter

    A shallow embedding of [query_reformatting.py]: the function
    [make_json_query], which asks a chat model to rewrite a free-text query
    as a JSON object and then overlays five caller-controlled fields, and the
    Streamlit script around it.

    Two modules the program imports are outside the repository: the OpenAI
    SDK and Python's [json]. They enter the development as interfaces
    ([OpenAI_SDK], [JsonModule]); every general theorem holds for all their
    implementations. A reference JSON decoder and a mocked SDK are defined
    further down and used to run the program on concrete inputs. *)

From stdpp Require Import gmap strings list fin_maps.
From Stdlib Require Import ZArith Ascii.

Set Warnings "-register-all".

(** ** Python values

    The objects the program handles are the ones [json.loads] builds
    (None, bool, int, float, str, list, dict with str keys); arguments are
    dynamically typed, so parameters range over the same universe.
    A [str] is the Rocq string of its UTF-8 encoding. The program never
    computes with a float: one is kept as the lexeme it was decoded from.
    A dict with str keys is a finite map; Python compares dicts without
    regard to insertion order, and so does equality of [gmap]. *)
Inductive value : Type :=
| VNone
| VBool (b : bool)
| VInt (n : Z)
| VFloat (lexeme : string)
| VStr (s : string)
| VList (items : list value)
| VDict (d : gmap string value).

(** ** Exceptions

    A call either returns or raises; nothing in the program catches. *)
Inductive exn : Type :=
| TypeError (msg : string)
| IndexError (msg : string)
| JSONDecodeError (msg : string)
| RecursionError
| OpenAIError (msg : string).

Inductive result (A : Type) : Type :=
| Ok (a : A)
| Raise (e : exn).
Arguments Ok {A} a.
Arguments Raise {A} e.

#[global] Instance result_ret : MRet result := fun A a => Ok a.
#[global] Instance result_bind : MBind result := fun A B f m =>
  match m with
  | Ok a => f a
  | Raise e => Raise e
  end.

(** ** The imported modules *)

(** [response.choices[0].message.content]: the objects a chat completion
    is made of, with the attributes the program reads. *)
Record ChatCompletionMessage : Type := { content : option string }.
Record Choice : Type := { message : ChatCompletionMessage }.
Record ChatCompletion : Type := { choices : list Choice }.

(** The keyword arguments of [client.chat.completions.create]. *)
Record create_kwargs : Type := {
  model : value;
  messages : value;
  temperature : value;
  response_format : value
}.

(** [from openai import OpenAI]: the constructor of a client and the one
    method called on it. Both reach outside the program and may raise. *)
Class OpenAI_SDK : Type := {
  Client : Type;
  OpenAI : value -> result Client;
  chat_completions_create : Client -> create_kwargs -> result ChatCompletion
}.

(** [import json]: the decoder, applied to the content of the reply, which
    the SDK types as an optional str. *)
Class JsonModule : Type := {
  json_loads : option string -> result value
}.

(** ** Built-in operations *)

(** [l[0]] on a list. *)
Definition getitem0 {A : Type} (l : list A) : result A :=
  match l !! 0%nat with
  | Some x => Ok x
  | None => Raise (IndexError "list index out of range")
  end.

(** [obj[key] = v] with a str key: defined on a dict, where it adds the key
    or replaces its value; a TypeError on every other object. *)
Definition setitem (obj : value) (key : string) (v : value) : result value :=
  match obj with
  | VDict d => Ok (VDict (<[key := v]> d))
  | VList _ => Raise (TypeError "list indices must be integers or slices, not str")
  | _ => Raise (TypeError "object does not support item assignment")
  end.

(** The double quote, for string constants that contain one. *)
Definition dq : string := String (ascii_of_nat 34) EmptyString.

(** ** [make_json_query] *)

(** The text bound to [system_prompt], character for character. *)
Definition system_prompt : string :=
  "
    You are a query reformatter that is knowledgeable of plant genetics. You take user input in string format, and reformat the entry into a JSON object.
    The JSON object is used to query Textpresso, which contains a corpus of plant genetics papers that users can query for specific traits, genes, etc. 

    The users may ask about crop traits (plant height, tassel number), gene regulatory elements (methylation, chromatin accessibility), etc. 
    
    You'll need to reformat their query, taking elements like keywords.  

    The contents of the JSON object are as follows: 
     token (string) : a valid access token to the Textpresso platform. 
     include_fulltext (boolean) : whether to return the fulltext and abstract of the documents. Default value is false.
     query (object) : the user query reformulated into a structured form. 
     include_all_sentences (boolean) : whether to return the text of all the sentences in the text. Default value is false. Restricted to specific tokens due to copyright.
     include_match_sentences (boolean) : whether to return the text of each matched sentence. Valid only for sentence searches. Default value is false
     since_num (int) : used for pagination. Skip the first results and return entries from the specified number. Note that the counter starts from 0 - i.e., the first document is number 0.
     count (int) : used for pagination. Return up to the specified number of results. Maximum value is 200

    In the query object, the following fields are possible. Note that the user may ask for multiple genes, traits, etc. so make sure to use AND and OR appropriately. 
    keywords (string) : (optional) the keywords to match in the text. Can contain logical operators AND and OR and grouping by round brackets
    exclude_keywords (string) : (optional) the keywords to exclude. Can contain logical operators AND and OR and grouping by round brackets
    year (string) : (optional) year of publication of the paper
    author (string) : (optional) the author(s) of the paper
    accession (string) : (optional) the accession of the paper
    journal (string) : (optional) the journal where the paper has been published
    paper_type (string) : (optional) the type of paper (e.g., research_article, review)
    exact_match_author (bool) : (optional) apply exact match on the author field
    exact_match_journal (bool) : (optional) apply exact match on the journal field
    categories_and_ed (bool) : (optional) use AND logical operator between the provided categories
    type (string) : the type of search to perform. Accepted values are: document to query the fulltext of documents and sentence to search in each sentence separately. Default value is document
    case_sensitive (boolean) : whether to perform a case sensitive search. Default value is false
    sort_by_year (boolean) : whether the results have to be sorted by publication date. Default value is false 

    Rules for keyword conversion:
      1. The species name (e.g., maize) should always be included with AND.
      2. All main concepts in the query should be connected with AND, unless the user explicitly mentions alternatives (like "
  +:+ dq +:+ "or"
  +:+ dq +:+ ").
      3. Remove filler words ("
  +:+ dq +:+ "the"
  +:+ dq +:+ ", "
  +:+ dq +:+ "of"
  +:+ dq +:+ ", "
  +:+ dq +:+ "in"
  +:+ dq +:+ ", etc.).
      4. Use parentheses to group related concepts for clarity.
      
    A valid output format is below: 
    {
      "
  +:+ dq +:+ "token"
  +:+ dq +:+ ": "
  +:+ dq +:+ "<ACCESS_TOKEN>"
  +:+ dq +:+ ",
      "
  +:+ dq +:+ "query"
  +:+ dq +:+ ": {
          "
  +:+ dq +:+ "keywords"
  +:+ dq +:+ ": "
  +:+ dq +:+ "<user query reformulated into structured form>"
  +:+ dq +:+ "
      },
      "
  +:+ dq +:+ "include_fulltext"
  +:+ dq +:+ ": false,
      "
  +:+ dq +:+ "include_all_sentences"
  +:+ dq +:+ ": false,
      "
  +:+ dq +:+ "include_match_sentences"
  +:+ dq +:+ ": false,
      "
  +:+ dq +:+ "since_num"
  +:+ dq +:+ ": 0,
      "
  +:+ dq +:+ "count"
  +:+ dq +:+ ": 10
    }
    ".

(** The keyword arguments of the one call to the model, written in place in
    the source: the model name, the instruction message and the user's text,
    temperature 0, and a reply constrained to a JSON object. *)
Definition chat_request (user_query : value) : create_kwargs :=
  {| model := VStr "gpt-4o-mini";
     messages := VList [
       VDict {[ "role" := VStr "system"; "content" := VStr system_prompt ]};
       VDict {[ "role" := VStr "user"; "content" := user_query ]} ];
     temperature := VInt 0;
     response_format := VDict {[ "type" := VStr "json_object" ]} |}.

Section Core.
Context {sdk : OpenAI_SDK} {json : JsonModule}.

Definition make_json_query
    (user_query textpresso_token openai_token
     include_fulltext include_all_sentences include_match_sentences
     count : value) : result value :=
  client ← OpenAI openai_token;
  response ← chat_completions_create client (chat_request user_query);
  choice ← getitem0 (choices response);
  output_json ← json_loads (content (message choice));
  output_json ← setitem output_json "token" textpresso_token;
  output_json ← setitem output_json "include_fulltext" include_fulltext;
  output_json ← setitem output_json "include_all_sentences" include_all_sentences;
  output_json ← setitem output_json "include_match_sentences" include_match_sentences;
  output_json ← setitem output_json "count" count;
  mret output_json.

(** The content of the model's reply, as the function obtains it (the client,
    the call, the first choice), and that content decoded. *)
Definition model_reply (user_query openai_token : value) : result (option string) :=
  client ← OpenAI openai_token;
  response ← chat_completions_create client (chat_request user_query);
  choice ← getitem0 (choices response);
  mret (content (message choice)).

Definition parsed_reply (user_query openai_token : value) : result value :=
  reply ← model_reply user_query openai_token;
  json_loads reply.

End Core.

(** The five keys the function writes after decoding. *)
Definition overlay_keys : list string :=
  ["token"; "include_fulltext"; "include_all_sentences";
   "include_match_sentences"; "count"].

Definition is_dict (v : value) : bool :=
  match v with
  | VDict _ => true
  | _ => false
  end.

(** The content of the first message of a request, when that message has
    the system role. *)
Definition instruction (request : create_kwargs) : option value :=
  match messages request with
  | VList (VDict m :: _) =>
    match m !! "role" with
    | Some (VStr "system") => m !! "content"
    | _ => None
    end
  | _ => None
  end.

Definition carries (text : string) (request : create_kwargs) : bool :=
  match instruction request with
  | Some (VStr s) => String.eqb s text
  | _ => false
  end.

(** An endpoint that refuses every request whose instruction message is not
    [text], and passes the others on to [sdk]. *)
Definition insisting_on (text : string) (sdk : OpenAI_SDK) : OpenAI_SDK :=
  {| Client := @Client sdk;
     OpenAI := @OpenAI sdk;
     chat_completions_create := fun client request =>
       if carries text request then chat_completions_create client request
       else Raise (OpenAIError "unexpected instruction message") |}.

(** ** Calling [make_json_query]

    The signature has three required parameters and four with defaults.
    [bind_arguments] is Python's binding of a call's positional and keyword
    arguments to them; every ill-formed call is a TypeError. *)
Definition parameters : list string :=
  ["user_query"; "textpresso_token"; "openai_token";
   "include_fulltext"; "include_all_sentences"; "include_match_sentences";
   "count"].

Definition defaults : gmap string value :=
  {[ "include_fulltext" := VBool false;
     "include_all_sentences" := VBool false;
     "include_match_sentences" := VBool false;
     "count" := VInt 10 ]}.

Definition bind_keyword (bound : result (gmap string value))
    (kw : string * value) : result (gmap string value) :=
  env ← bound;
  if bool_decide (kw.1 ∈ parameters) then
    match env !! kw.1 with
    | Some _ => Raise (TypeError "got multiple values for argument")
    | None => Ok (<[kw.1 := kw.2]> env)
    end
  else Raise (TypeError "got an unexpected keyword argument").

Definition bind_arguments (args : list value) (kwargs : list (string * value))
    : result (gmap string value) :=
  if bool_decide (length args ≤ length parameters) then
    foldl bind_keyword (Ok (list_to_map (zip parameters args))) kwargs
  else Raise (TypeError "too many positional arguments").

(** The value a parameter has in the body: the bound one or its default. *)
Definition parameter (env : gmap string value) (name : string) : result value :=
  match (env ∪ defaults) !! name with
  | Some v => Ok v
  | None => Raise (TypeError "missing a required positional argument")
  end.

Section Call.
Context {sdk : OpenAI_SDK} {json : JsonModule}.

Definition call_make_json_query (args : list value)
    (kwargs : list (string * value)) : result value :=
  env ← bind_arguments args kwargs;
  user_query ← parameter env "user_query";
  textpresso_token ← parameter env "textpresso_token";
  openai_token ← parameter env "openai_token";
  include_fulltext ← parameter env "include_fulltext";
  include_all_sentences ← parameter env "include_all_sentences";
  include_match_sentences ← parameter env "include_match_sentences";
  count ← parameter env "count";
  make_json_query user_query textpresso_token openai_token
    include_fulltext include_all_sentences include_match_sentences count.

End Call.

(** ** The Streamlit script *)

(** UTF-8, with a surrogate encoded like any other code point of its range
    (Python strings may hold one). *)
Definition byte (n : N) : ascii := ascii_of_N (n mod 256).

Definition utf8_encode (cp : N) : string :=
  if (cp <? 128)%N then String (byte cp) EmptyString
  else if (cp <? 2048)%N then
    String (byte (192 + cp / 64)) (String (byte (128 + cp mod 64)) EmptyString)
  else if (cp <? 65536)%N then
    String (byte (224 + cp / 4096))
      (String (byte (128 + (cp / 64) mod 64))
        (String (byte (128 + cp mod 64)) EmptyString))
  else
    String (byte (240 + cp / 262144))
      (String (byte (128 + (cp / 4096) mod 64))
        (String (byte (128 + (cp / 64) mod 64))
          (String (byte (128 + cp mod 64)) EmptyString))).

(** The characters [str.strip] removes: the code points Python counts as
    whitespace. *)
Definition whitespace : list string :=
  utf8_encode <$>
    [9; 10; 11; 12; 13; 28; 29; 30; 31; 32; 133; 160; 5760;
     8192; 8193; 8194; 8195; 8196; 8197; 8198; 8199; 8200; 8201; 8202;
     8232; 8233; 8239; 8287; 12288]%N.

Fixpoint drop_chars (n : nat) (s : string) : string :=
  match n, s with
  | S n, String _ r => drop_chars n r
  | _, _ => s
  end.

Fixpoint lstrip_of (ws : list string) (fuel : nat) (s : string) : string :=
  match fuel with
  | O => s
  | S fuel =>
    match List.find (fun w => String.prefix w s) ws with
    | Some w => lstrip_of ws fuel (drop_chars (String.length w) s)
    | None => s
    end
  end.

Definition lstrip (s : string) : string :=
  lstrip_of whitespace (String.length s) s.

Definition rstrip (s : string) : string :=
  String.rev (lstrip_of (String.rev <$> whitespace) (String.length s) (String.rev s)).

Definition strip (s : string) : string := rstrip (lstrip s).

(** Truth value of a str, and [a and b] on two of them. *)
Definition str_truthy (s : string) : bool := negb (String.eqb s EmptyString).

Definition str_and (a b : string) : string := if str_truthy a then b else a.

Definition page_title : string := "Query → JSON Reformatter".

(** What a run of the script shows besides its widgets. *)
Inductive st_call : Type :=
| st_title (body : string)
| st_json (body : value)
| st_warning (body : string).

Section Script.
Context {sdk : OpenAI_SDK} {json : JsonModule}.

(** One run of the script. The parameters are what the widgets return on
    that run: two text inputs and a text area (str), three checkboxes
    (bool), the number input (an int, kept by the widget in 1..200) and the
    button (True on the run its press triggers). The result is what was
    displayed and the exception that ended the run, if any. *)
Definition script (user_query textpresso_token openai_token : string)
    (include_fulltext include_all_sentences include_match_sentences : bool)
    (count : Z) (button : bool) : list st_call * option exn :=
  let shown := [st_title page_title] in
  if button then
    if str_truthy (str_and (strip user_query) (strip openai_token)) then
      match call_make_json_query
              [VStr user_query; VStr textpresso_token; VStr openai_token;
               VInt count] [] with
      | Ok result => (shown ++ [st_json result], None)
      | Raise e => (shown, Some e)
      end
    else
      (shown ++ [st_warning "Please enter both a query and an access token."],
       None)
  else (shown, None).

End Script.

(** ** A reference decoder for [json.loads]

    The grammar and the error cases of Python's [json.decoder] with its
    default settings: whitespace is space, tab, line feed and carriage
    return; a control character inside a string is refused; the constants
    NaN, Infinity and -Infinity are accepted; a key given twice keeps its
    last value. Error positions are left out of the messages. Recursion is
    on [fuel], which [decode] sets from the length of the text. *)
Definition dq_char : ascii := ascii_of_nat 34.

Definition is_ws (c : ascii) : bool :=
  bool_decide (c ∈ [" "; "009"; "010"; "013"]%char).

Fixpoint skip_ws (s : string) : string :=
  match s with
  | String c r => if is_ws c then skip_ws r else s
  | EmptyString => s
  end.

Definition is_digit (c : ascii) : bool :=
  (48 <=? nat_of_ascii c)%nat && (nat_of_ascii c <=? 57)%nat.

Definition hex_digit (c : ascii) : option N :=
  let n := N_of_ascii c in
  if (48 <=? n)%N && (n <=? 57)%N then Some (n - 48)%N
  else if (65 <=? n)%N && (n <=? 70)%N then Some (n - 55)%N
  else if (97 <=? n)%N && (n <=? 102)%N then Some (n - 87)%N
  else None.

(** The four hex digits of a [\uXXXX] escape and what follows them. *)
Definition decode_uXXXX (s : string) : result (N * string) :=
  match s with
  | String a (String b (String c (String d r))) =>
    match hex_digit a, hex_digit b, hex_digit c, hex_digit d with
    | Some a, Some b, Some c, Some d =>
      Ok ((((a * 16 + b) * 16 + c) * 16 + d)%N, r)
    | _, _, _, _ => Raise (JSONDecodeError "Invalid \uXXXX escape")
    end
  | _ => Raise (JSONDecodeError "Invalid \uXXXX escape")
  end.

Definition backslash (c : ascii) : option ascii :=
  if Ascii.eqb c dq_char then Some dq_char
  else match c with
  | "\"%char => Some "\"%char
  | "/"%char => Some "/"%char
  | "b"%char => Some "008"%char
  | "f"%char => Some "012"%char
  | "n"%char => Some "010"%char
  | "r"%char => Some "013"%char
  | "t"%char => Some "009"%char
  | _ => None
  end.

Definition is_high_surrogate (u : N) : bool := (55296 <=? u)%N && (u <=? 56319)%N.
Definition is_low_surrogate (u : N) : bool := (56320 <=? u)%N && (u <=? 57343)%N.

(** The characters of a string literal after its opening quote, decoded, and
    the text after its closing quote. [high] is a high surrogate read from
    the escape just before, waiting for its low half. *)
Fixpoint scanstring_from (high : option N) (s : string) : result (string * string) :=
  let pending := from_option utf8_encode EmptyString high in
  match s with
  | EmptyString => Raise (JSONDecodeError "Unterminated string starting at")
  | String c r =>
    if Ascii.eqb c dq_char then Ok (pending, r)
    else if Ascii.eqb c "\" then
      match r with
      | EmptyString => Raise (JSONDecodeError "Unterminated string starting at")
      | String esc r' =>
        if Ascii.eqb esc "u" then
          match r' with
          | String _ (String _ (String _ (String _ r''))) =>
            '(uni, _) ← decode_uXXXX r';
            match high with
            | Some hi =>
              if is_low_surrogate uni then
                '(chars, rest) ← scanstring_from None r'';
                Ok (utf8_encode (65536 + ((hi - 55296) * 1024 + (uni - 56320)))
                      +:+ chars, rest)
              else if is_high_surrogate uni then
                '(chars, rest) ← scanstring_from (Some uni) r'';
                Ok (pending +:+ chars, rest)
              else
                '(chars, rest) ← scanstring_from None r'';
                Ok (pending +:+ utf8_encode uni +:+ chars, rest)
            | None =>
              if is_high_surrogate uni then scanstring_from (Some uni) r''
              else
                '(chars, rest) ← scanstring_from None r'';
                Ok (utf8_encode uni +:+ chars, rest)
            end
          | _ => Raise (JSONDecodeError "Invalid \uXXXX escape")
          end
        else
          match backslash esc with
          | Some char =>
            '(chars, rest) ← scanstring_from None r';
            Ok (pending +:+ String char chars, rest)
          | None => Raise (JSONDecodeError "Invalid \escape")
          end
      end
    else if (nat_of_ascii c <? 32)%nat then
      Raise (JSONDecodeError "Invalid control character at")
    else
      '(chars, rest) ← scanstring_from None r;
      Ok (pending +:+ String c chars, rest)
  end.

Definition scanstring (s : string) : result (string * string) :=
  scanstring_from None s.

Fixpoint take_digits (s : string) : string * string :=
  match s with
  | String c r =>
    if is_digit c then let '(ds, rest) := take_digits r in (String c ds, rest)
    else (EmptyString, s)
  | EmptyString => (EmptyString, s)
  end.

(** The text split at its first character when that is one of [cs]. *)
Definition take_one_of (cs : list ascii) (s : string) : string * string :=
  match s with
  | String c r =>
    if bool_decide (c ∈ cs) then (String c EmptyString, r) else (EmptyString, s)
  | EmptyString => (EmptyString, s)
  end.

(** The integer part of a number: an optional minus, then [0] alone or a
    non-zero digit and more digits. *)
Definition match_integer (s : string) : option (string * string) :=
  let '(sign, r) := take_one_of ["-"%char] s in
  match r with
  | String c r' =>
    if Ascii.eqb c "0" then Some (sign +:+ "0", r')
    else if is_digit c then
      let '(ds, rest) := take_digits r' in Some (sign +:+ String c ds, rest)
    else None
  | EmptyString => None
  end.

(** The optional fraction: a dot and at least one digit. *)
Definition match_frac (s : string) : string * string :=
  let '(dot, r) := take_one_of ["."%char] s in
  let '(ds, rest) := take_digits r in
  match dot, ds with
  | String _ _, String _ _ => (dot +:+ ds, rest)
  | _, _ => (EmptyString, s)
  end.

(** The optional exponent: e or E, an optional sign, at least one digit. *)
Definition match_exp (s : string) : string * string :=
  let '(e, r) := take_one_of ["e"; "E"]%char s in
  let '(sign, r) := take_one_of ["-"; "+"]%char r in
  let '(ds, rest) := take_digits r in
  match e, ds with
  | String _ _, String _ _ => (e +:+ sign +:+ ds, rest)
  | _, _ => (EmptyString, s)
  end.

Fixpoint digits_value (acc : Z) (s : string) : Z :=
  match s with
  | String c r => digits_value (10 * acc + (Z.of_nat (nat_of_ascii c) - 48)) r
  | EmptyString => acc
  end.

(** [int] of the text of an integer part. *)
Definition parse_int (s : string) : Z :=
  match take_one_of ["-"%char] s with
  | (String _ _, r) => - digits_value 0 r
  | (EmptyString, r) => digits_value 0 r
  end.

(** A number at the head of the text: an int when it has neither fraction
    nor exponent, a float otherwise. *)
Definition match_number (s : string) : option (value * string) :=
  match match_integer s with
  | Some (integer, r) =>
    let '(frac, r) := match_frac r in
    let '(exp, r) := match_exp r in
    match frac +:+ exp with
    | EmptyString => Some (VInt (parse_int integer), r)
    | _ => Some (VFloat (integer +:+ frac +:+ exp), r)
    end
  | None => None
  end.

(** A literal at the head of the text. *)
Definition match_literal (lit : string) (v : value) (s : string)
    : option (value * string) :=
  if String.prefix lit s then Some (v, drop_chars (String.length lit) s)
  else None.

(** What can stand for a value besides a string, an object and an array, in
    the order the scanner tries them. *)
Definition scalars (s : string) : list (option (value * string)) :=
  [match_literal "null" VNone s; match_literal "true" (VBool true) s;
   match_literal "false" (VBool false) s; match_number s;
   match_literal "NaN" (VFloat "NaN") s;
   match_literal "Infinity" (VFloat "Infinity") s;
   match_literal "-Infinity" (VFloat "-Infinity") s].

Definition scan_scalar (s : string) : result (value * string) :=
  match omap id (scalars s) with
  | found :: _ => Ok found
  | [] => Raise (JSONDecodeError "Expecting value")
  end.

(** The text after whitespace and the character [c], which must come next. *)
Definition expect (c : ascii) (msg : string) (s : string) : result string :=
  match skip_ws s with
  | String c' r => if Ascii.eqb c' c then Ok r else Raise (JSONDecodeError msg)
  | EmptyString => Raise (JSONDecodeError msg)
  end.

(** Whether the character [c] comes next after whitespace, and the text
    after it if so. *)
Definition accept (c : ascii) (s : string) : option string :=
  match skip_ws s with
  | String c' r => if Ascii.eqb c' c then Some r else None
  | EmptyString => None
  end.

(** [scan_once] reads one value at the head of the text; [array_items] the
    items of an array after its bracket, [object_pairs] the pairs of an
    object after the opening quote of a key, up to the closing bracket. *)
Fixpoint scan_once (fuel : nat) (s : string) : result (value * string) :=
  match fuel with
  | O => Raise RecursionError
  | S fuel =>
    match s with
    | String c r =>
      if Ascii.eqb c dq_char then
        '(chars, rest) ← scanstring r; Ok (VStr chars, rest)
      else if Ascii.eqb c "{" then
        match accept "}" r with
        | Some rest => Ok (VDict ∅, rest)
        | None =>
          r ← expect dq_char "Expecting property name enclosed in double quotes" r;
          object_pairs fuel r ∅
        end
      else if Ascii.eqb c "[" then
        match accept "]" r with
        | Some rest => Ok (VList [], rest)
        | None => array_items fuel (skip_ws r) []
        end
      else scan_scalar s
    | EmptyString => Raise (JSONDecodeError "Expecting value")
    end
  end
with array_items (fuel : nat) (s : string) (values : list value)
    : result (value * string) :=
  match fuel with
  | O => Raise RecursionError
  | S fuel =>
    '(v, rest) ← scan_once fuel s;
    match accept "]" rest with
    | Some rest => Ok (VList (values ++ [v]), rest)
    | None =>
      r ← expect "," "Expecting ',' delimiter" rest;
      array_items fuel (skip_ws r) (values ++ [v])
    end
  end
with object_pairs (fuel : nat) (s : string) (pairs : gmap string value)
    : result (value * string) :=
  match fuel with
  | O => Raise RecursionError
  | S fuel =>
    '(key, rest) ← scanstring s;
    r ← expect ":" "Expecting ':' delimiter" rest;
    '(v, rest) ← scan_once fuel (skip_ws r);
    match accept "}" rest with
    | Some rest => Ok (VDict (<[key := v]> pairs), rest)
    | None =>
      r ← expect "," "Expecting ',' delimiter" rest;
      r ← expect dq_char "Expecting property name enclosed in double quotes" r;
      object_pairs fuel r (<[key := v]> pairs)
    end
  end.

(** [JSONDecoder.decode]: one value, with whitespace around it and nothing
    else. *)
Definition decode (s : string) : result value :=
  '(obj, rest) ← scan_once (2 * String.length s + 2) (skip_ws s);
  match skip_ws rest with
  | EmptyString => Ok obj
  | _ => Raise (JSONDecodeError "Extra data")
  end.

(** [json.loads] on the content of a reply: None is not a str; a str must
    not start with a byte order mark. *)
Definition loads (s : option string) : result value :=
  match s with
  | None => Raise (TypeError "the JSON object must be str, bytes or bytearray, not NoneType")
  | Some s =>
    if String.prefix (utf8_encode 65279) s then
      Raise (JSONDecodeError "Unexpected UTF-8 BOM (decode using utf-8-sig)")
    else decode s
  end.

Definition python_json : JsonModule := {| json_loads := loads |}.

(** An outcome of a scanner on the text [s] that is an answer: a value with
    a remainder shorter than [s], or an exception other than the one for
    exhausted fuel. *)
Definition settles {A : Type} (s : string) (r : result (A * string)) : Prop :=
  match r with
  | Ok (_, rest) => String.length rest < String.length s
  | Raise e => e ≠ RecursionError
  end.

(** ** Mocked model endpoints *)

(** An endpoint that answers every request with one choice per given
    content. *)
Definition answering (contents : list (option string)) : OpenAI_SDK :=
  {| Client := value;
     OpenAI := fun api_key => Ok api_key;
     chat_completions_create := fun _ _ =>
       Ok {| choices := (fun c => {| message := {| content := c |} |}) <$> contents |} |}.

Definition replying (text : string) : OpenAI_SDK := answering [Some text].

(** An endpoint whose call raises. *)
Definition failing (e : exn) : OpenAI_SDK :=
  {| Client := value;
     OpenAI := fun api_key => Ok api_key;
     chat_completions_create := fun _ _ => Raise e |}.

Definition quoted (s : string) : string := dq +:+ s +:+ dq.

(** The reply of the documented scenario, and the envelope expected for it
    with token T, the three flags false and count 10. *)
Definition scenario_reply : string :=
  "{" +:+ quoted "query" +:+ ": {" +:+ quoted "keywords" +:+ ": "
  +:+ quoted "maize AND (plant height)" +:+ "}}".

Definition scenario_object : gmap string value :=
  {[ "query" := VDict {[ "keywords" := VStr "maize AND (plant height)" ]} ]}.

Definition scenario_envelope : gmap string value :=
  {[ "token" := VStr "T";
     "query" := VDict {[ "keywords" := VStr "maize AND (plant height)" ]};
     "include_fulltext" := VBool false;
     "include_all_sentences" := VBool false;
     "include_match_sentences" := VBool false;
     "count" := VInt 10 ]}.

(** A reply in which the model fills the five overlay keys itself, and
    [since_num] too. *)
Definition meddling_reply : string :=
  "{" +:+ quoted "token" +:+ ": " +:+ quoted "chosen by the model" +:+ ", "
  +:+ quoted "include_fulltext" +:+ ": true, "
  +:+ quoted "include_all_sentences" +:+ ": true, "
  +:+ quoted "include_match_sentences" +:+ ": true, "
  +:+ quoted "since_num" +:+ ": 20, "
  +:+ quoted "count" +:+ ": 200, "
  +:+ quoted "query" +:+ ": {" +:+ quoted "keywords" +:+ ": " +:+ quoted "maize"
  +:+ ", " +:+ quoted "type" +:+ ": " +:+ quoted "sentence" +:+ "}}".

Definition meddling_object : gmap string value :=
  {[ "token" := VStr "chosen by the model";
     "include_fulltext" := VBool true;
     "include_all_sentences" := VBool true;
     "include_match_sentences" := VBool true;
     "since_num" := VInt 20;
     "count" := VInt 200;
     "query" := VDict {[ "keywords" := VStr "maize"; "type" := VStr "sentence" ]} ]}.

(** ** Notions the further properties are stated with *)

(** The five assignments of [make_json_query] as a dict of their own, in
    the order the function makes them. *)
Definition overlay (textpresso_token include_fulltext include_all_sentences
    include_match_sentences count : value) : gmap string value :=
  <["count" := count]>
    (<["include_match_sentences" := include_match_sentences]>
      (<["include_all_sentences" := include_all_sentences]>
        (<["include_fulltext" := include_fulltext]>
          (<["token" := textpresso_token]> ∅)))).

Definition str_is (s : string) (v : value) : bool :=
  match v with
  | VStr s' => String.eqb s' s
  | _ => false
  end.

(** A message dict with exactly a role and a content, both as given. *)
Definition message_is (role text : string) (m : value) : bool :=
  match m with
  | VDict d =>
    bool_decide (size d = 2) &&
    from_option (str_is role) false (d !! "role") &&
    from_option (str_is text) false (d !! "content")
  | _ => false
  end.

(** The request the source spells out for the user text [user_text]. *)
Definition expected_request (user_text : string) (request : create_kwargs) : bool :=
  str_is "gpt-4o-mini" (model request) &&
  match temperature request with
  | VInt 0 => true
  | _ => false
  end &&
  match response_format request with
  | VDict f =>
    bool_decide (size f = 1) &&
    from_option (str_is "json_object") false (f !! "type")
  | _ => false
  end &&
  match messages request with
  | VList [m1; m2] =>
    message_is "system" system_prompt m1 && message_is "user" user_text m2
  | _ => false
  end.

(** An endpoint that refuses every request failing [check], and passes the
    others on to [sdk]. *)
Definition requiring (check : create_kwargs → bool) (sdk : OpenAI_SDK) : OpenAI_SDK :=
  {| Client := @Client sdk;
     OpenAI := @OpenAI sdk;
     chat_completions_create := fun client request =>
       if check request then chat_completions_create client request
       else Raise (OpenAIError "unexpected request") |}.

Fixpoint all_chars (p : ascii → bool) (s : string) : bool :=
  match s with
  | String c r => p c && all_chars p r
  | EmptyString => true
  end.

Fixpoint count_chars (p : ascii → bool) (s : string) : nat :=
  match s with
  | String c r => (if p c then 1 else 0) + count_chars p r
  | EmptyString => 0
  end.

(** Space, the controls 9 to 13 (tab, line feed and the like) and 28 to 31. *)
Definition is_ascii_space (c : ascii) : bool :=
  bool_decide (nat_of_ascii c ∈ [9; 10; 11; 12; 13; 28; 29; 30; 31; 32]).

(** A printable ASCII character other than the space. *)
Definition is_visible (c : ascii) : bool :=
  (33 <=? nat_of_ascii c) && (nat_of_ascii c <=? 126).

Definition warning_text : string :=
  "Please enter both a query and an access token.".

(** The reply that spells out [scenario_envelope]. *)
Definition scenario_envelope_reply : string :=
  "{" +:+ quoted "token" +:+ ": " +:+ quoted "T" +:+ ", "
  +:+ quoted "query" +:+ ": {" +:+ quoted "keywords" +:+ ": "
  +:+ quoted "maize AND (plant height)" +:+ "}, "
  +:+ quoted "include_fulltext" +:+ ": false, "
  +:+ quoted "include_all_sentences" +:+ ": false, "
  +:+ quoted "include_match_sentences" +:+ ": false, "
  +:+ quoted "count" +:+ ": 10}".

(** ** The JSON grammar

    Whether a text is a JSON text in the sense of RFC 8259: one value with
    whitespace around it, a value being an object, an array, a string, a
    number, or one of the literals null, true and false. With [constants]
    set, NaN, Infinity and -Infinity count as numbers too, which is the one
    extension Python's decoder makes to the grammar. The scanners below give
    the text left after what they recognise. *)
Definition grammar_string (s : string) : option string :=
  match scanstring s with
  | Ok (_, rest) => Some rest
  | Raise _ => None
  end.

Definition grammar_scalar (constants : bool) (s : string) : option string :=
  let standard :=
    [match_literal "null" VNone s; match_literal "true" (VBool true) s;
     match_literal "false" (VBool false) s; match_number s] in
  let extension :=
    [match_literal "NaN" (VFloat "NaN") s;
     match_literal "Infinity" (VFloat "Infinity") s;
     match_literal "-Infinity" (VFloat "-Infinity") s] in
  match omap id (standard ++ if constants then extension else []) with
  | found :: _ => Some found.2
  | [] => None
  end.

Fixpoint grammar_value (constants : bool) (fuel : nat) (s : string) : option string :=
  match fuel with
  | O => None
  | S fuel =>
    match s with
    | String c r =>
      if Ascii.eqb c dq_char then grammar_string r
      else if Ascii.eqb c "{" then
        match accept "}" r with
        | Some rest => Some rest
        | None => r ← accept dq_char r; grammar_members constants fuel r
        end
      else if Ascii.eqb c "[" then
        match accept "]" r with
        | Some rest => Some rest
        | None => grammar_elements constants fuel (skip_ws r)
        end
      else grammar_scalar constants s
    | EmptyString => None
    end
  end
with grammar_elements (constants : bool) (fuel : nat) (s : string) : option string :=
  match fuel with
  | O => None
  | S fuel =>
    rest ← grammar_value constants fuel s;
    match accept "]" rest with
    | Some rest => Some rest
    | None => r ← accept "," rest; grammar_elements constants fuel (skip_ws r)
    end
  end
with grammar_members (constants : bool) (fuel : nat) (s : string) : option string :=
  match fuel with
  | O => None
  | S fuel =>
    rest ← grammar_string s;
    r ← accept ":" rest;
    rest ← grammar_value constants fuel (skip_ws r);
    match accept "}" rest with
    | Some rest => Some rest
    | None =>
      r ← accept "," rest;
      r ← accept dq_char r;
      grammar_members constants fuel r
    end
  end.

Definition json_text (constants : bool) (s : string) : bool :=
  match grammar_value constants (2 * String.length s + 2) (skip_ws s) with
  | Some rest => bool_decide (skip_ws rest = EmptyString)
  | None => false
  end.

(** A valid JSON text: the grammar without the extension. *)
Definition valid_json (s : string) : bool := json_text false s.

(** What a scanner of the decoder leaves of the text, if it succeeds. *)
Definition remainder {A : Type} (r : result (A * string)) : option string :=
  match r with
  | Ok (_, rest) => Some rest
  | Raise _ => None
  end.

(** A reply that is an object whose one value is the constant NaN, and the
    envelope the call makes of it with token T, the flags False and
    count 10. *)
Definition nan_reply : string := "{" +:+ quoted "x" +:+ ": NaN}".

Definition nan_envelope : gmap string value :=
  {[ "x" := VFloat "NaN";
     "token" := VStr "T";
     "include_fulltext" := VBool false;
     "include_all_sentences" := VBool false;
     "include_match_sentences" := VBool false;
     "count" := VInt 10 ]}.

(** * Properties *)

(** ** Item assignment and the overlay keys *)

Lemma setitem_not_dict (v : value) (key : string) (x : value) :
  is_dict v = false → ∃ msg, setitem v key x = Raise (TypeError msg).
Proof. destruct v; simpl; intros Hd; try discriminate Hd; eauto. Qed.

Lemma not_overlay_key (key : string) :
  key ∉ overlay_keys →
  "token" ≠ key ∧ "include_fulltext" ≠ key ∧ "include_all_sentences" ≠ key ∧
  "include_match_sentences" ≠ key ∧ "count" ≠ key.
Proof.
  unfold overlay_keys. rewrite !not_elem_of_cons.
  intros (? & ? & ? & ? & ? & _). repeat split; congruence.
Qed.

(** ** [make_json_query] *)

Section CoreFacts.
Context {sdk : OpenAI_SDK} {json : JsonModule}.
Implicit Types (q t k a b c n : value) (d : gmap string value) (e : exn).

(** The function is the decoding of the reply followed by five item
    assignments. *)
Lemma make_json_query_parsed q t k a b c n :
  make_json_query q t k a b c n =
    (output_json ← parsed_reply q k;
     output_json ← setitem output_json "token" t;
     output_json ← setitem output_json "include_fulltext" a;
     output_json ← setitem output_json "include_all_sentences" b;
     output_json ← setitem output_json "include_match_sentences" c;
     output_json ← setitem output_json "count" n;
     mret output_json).
Proof.
  unfold make_json_query, parsed_reply, model_reply.
  destruct (OpenAI k) as [client|]; [|done]. simpl.
  destruct (chat_completions_create _ _) as [response|]; [|done]. simpl.
  by destruct (getitem0 _).
Qed.

Lemma make_json_query_dict q t k a b c n d :
  parsed_reply q k = Ok (VDict d) →
  make_json_query q t k a b c n =
    Ok (VDict (<["count" := n]> (<["include_match_sentences" := c]>
          (<["include_all_sentences" := b]> (<["include_fulltext" := a]>
             (<["token" := t]> d)))))).
Proof. intros Hd. by rewrite make_json_query_parsed, Hd. Qed.

Lemma make_json_query_not_dict q t k a b c n v :
  parsed_reply q k = Ok v → is_dict v = false →
  ∃ msg, make_json_query q t k a b c n = Raise (TypeError msg).
Proof.
  intros Hv Hnd. rewrite make_json_query_parsed, Hv. simpl.
  destruct (setitem_not_dict v "token" t Hnd) as [msg ->]. by exists msg.
Qed.

Lemma make_json_query_Ok_inv q t k a b c n result :
  make_json_query q t k a b c n = Ok result →
  ∃ d, parsed_reply q k = Ok (VDict d) ∧
    result = VDict (<["count" := n]> (<["include_match_sentences" := c]>
          (<["include_all_sentences" := b]> (<["include_fulltext" := a]>
             (<["token" := t]> d))))).
Proof.
  intros Hok. destruct (parsed_reply q k) as [v|e] eqn:Hv.
  - destruct v as [| | | | | |d];
      try (destruct (make_json_query_not_dict q t k a b c n _ Hv eq_refl) as [msg Hm];
           congruence).
    exists d. split; [done|].
    rewrite (make_json_query_dict _ _ _ _ _ _ _ _ Hv) in Hok. congruence.
  - rewrite make_json_query_parsed, Hv in Hok. discriminate.
Qed.

(** C1. Whenever the reply of the model decodes to a JSON object, the
    function returns an object whose [token], [include_fulltext],
    [include_all_sentences], [include_match_sentences] and [count] are the
    arguments of the call, whatever the decoded object held under these
    keys. *)
Theorem overlay_fields_are_the_arguments q t k a b c n d :
  parsed_reply q k = Ok (VDict d) →
  ∃ envelope, make_json_query q t k a b c n = Ok (VDict envelope) ∧
    envelope !! "token" = Some t ∧
    envelope !! "include_fulltext" = Some a ∧
    envelope !! "include_all_sentences" = Some b ∧
    envelope !! "include_match_sentences" = Some c ∧
    envelope !! "count" = Some n.
Proof.
  intros Hd. eexists. split; [by apply make_json_query_dict|].
  repeat split; by simplify_map_eq.
Qed.

(** C2. Whenever the reply decodes to a JSON object, every key other than
    the five overlay keys has in the returned object exactly what it had in
    the decoded one (absent if it was absent); so has [query] in
    particular. *)
Theorem other_fields_pass_through q t k a b c n d :
  parsed_reply q k = Ok (VDict d) →
  ∃ envelope, make_json_query q t k a b c n = Ok (VDict envelope) ∧
    (∀ key, key ∉ overlay_keys → envelope !! key = d !! key) ∧
    envelope !! "query" = d !! "query".
Proof.
  intros Hd. eexists. split; [by apply make_json_query_dict|].
  split; [|by rewrite !lookup_insert_ne].
  intros key (? & ? & ? & ? & ?)%not_overlay_key. by rewrite !lookup_insert_ne.
Qed.

(** The exception of the failing step is the outcome of the call, for
    every decoder: a reply the decoder rejects, an earlier failure (building
    the client, the call to the model, a reply without choices) or a failing
    item assignment. *)
Theorem failures_propagate q t k a b c n e :
  (∃ reply, model_reply q k = Ok reply ∧ json_loads reply = Raise e) ∨
  model_reply q k = Raise e ∨
  (∃ v, parsed_reply q k = Ok v ∧ setitem v "token" t = Raise e) →
  make_json_query q t k a b c n = Raise e.
Proof.
  rewrite make_json_query_parsed. unfold parsed_reply.
  intros [(reply & -> & Hl)|[->|(v & Hv & Hs)]].
  - cbn. by rewrite Hl.
  - reflexivity.
  - unfold parsed_reply in Hv. rewrite Hv. cbn. by rewrite Hs.
Qed.

(** C4. A reply that decodes to something other than an object (an array, a
    string, a number, a boolean, null) makes the call raise a TypeError, at
    the first item assignment. *)
Theorem non_object_reply_fails q t k a b c n v :
  parsed_reply q k = Ok v → is_dict v = false →
  ∃ msg, make_json_query q t k a b c n = Raise (TypeError msg).
Proof. apply make_json_query_not_dict. Qed.

(** C8. Whenever the reply decodes to a JSON object, the returned object
    has under [count] the very integer passed, inside 1..200 or not; whether
    the call succeeds does not depend on it. *)
Theorem count_is_not_clamped q t k a b c (count : Z) d :
  parsed_reply q k = Ok (VDict d) →
  ∃ envelope, make_json_query q t k a b c (VInt count) = Ok (VDict envelope) ∧
    envelope !! "count" = Some (VInt count).
Proof.
  intros Hd. eexists. split; [by apply make_json_query_dict|].
  by simplify_map_eq.
Qed.

End CoreFacts.

(** C6. Two calls with the same arguments, made against two endpoints that
    give the same reply (or fail alike), have the same outcome: the result
    is a function of the reply and the arguments alone. *)
Theorem same_reply_same_envelope (json : JsonModule) (sdk1 sdk2 : OpenAI_SDK)
    (q t k a b c n : value) :
  @model_reply sdk1 q k = @model_reply sdk2 q k →
  @make_json_query sdk1 json q t k a b c n =
  @make_json_query sdk2 json q t k a b c n.
Proof.
  intros Hsame. rewrite !make_json_query_parsed. unfold parsed_reply.
  by rewrite Hsame.
Qed.

(** ** The request *)

Lemma instruction_chat_request (q : value) :
  instruction (chat_request q) = Some (VStr system_prompt).
Proof. reflexivity. Qed.

(** C7. The instruction message of the request is the constant
    [system_prompt], whatever the user's text: any two requests carry the
    same one, and an endpoint that refuses every other instruction message
    changes the outcome of no call. *)
Theorem instruction_is_fixed :
  (∀ q, instruction (chat_request q) = Some (VStr system_prompt)) ∧
  (∀ q1 q2, instruction (chat_request q1) = instruction (chat_request q2)) ∧
  (∀ (sdk : OpenAI_SDK) (json : JsonModule) (q t k a b c n : value),
     @make_json_query (insisting_on system_prompt sdk) json q t k a b c n =
     @make_json_query sdk json q t k a b c n).
Proof.
  split; [apply instruction_chat_request|]. split; [done|].
  intros sdk json q t k a b c n. unfold make_json_query. cbn.
  destruct (OpenAI k) as [client|]; [|done]. cbn.
  assert (carries system_prompt (chat_request q) = true) as ->; [|done].
  unfold carries. rewrite instruction_chat_request. apply String.eqb_refl.
Qed.

(** ** Calls *)

Section CallFacts.
Context {sdk : OpenAI_SDK} {json : JsonModule}.
Implicit Types (q t k a b c n : value).

Lemma call_with_four q t k a :
  call_make_json_query [q; t; k; a] [] =
  make_json_query q t k a (VBool false) (VBool false) (VInt 10).
Proof. reflexivity. Qed.

(** C9. A call that leaves the optional parameters out is the call with
    False, False, False and 10 passed for them, by position or by keyword;
    and each optional parameter left out takes its default whatever the
    others are given. *)
Theorem omitted_parameters_take_defaults q t k a b c n :
  call_make_json_query [q; t; k] [] =
    make_json_query q t k (VBool false) (VBool false) (VBool false) (VInt 10) ∧
  call_make_json_query [q; t; k] [] =
    call_make_json_query
      [q; t; k; VBool false; VBool false; VBool false; VInt 10] [] ∧
  call_make_json_query [q; t; k] [] =
    call_make_json_query [q; t; k]
      [("include_fulltext", VBool false); ("include_all_sentences", VBool false);
       ("include_match_sentences", VBool false); ("count", VInt 10)] ∧
  call_make_json_query [q; t; k; a] [] =
    make_json_query q t k a (VBool false) (VBool false) (VInt 10) ∧
  call_make_json_query [q; t; k; a; b] [] =
    make_json_query q t k a b (VBool false) (VInt 10) ∧
  call_make_json_query [q; t; k; a; b; c] [] =
    make_json_query q t k a b c (VInt 10) ∧
  call_make_json_query [q; t; k] [("count", n)] =
    make_json_query q t k (VBool false) (VBool false) (VBool false) n.
Proof. repeat split; reflexivity. Qed.

(** ** The script *)

(** C5. On a run triggered by the button, with a query and a model token
    that are not blank, the script calls [make_json_query] with four
    positional arguments, the fourth being the number input: the call is the
    one with that number as [include_fulltext], False for the two other
    flags and 10 for [count]. The checkboxes have no influence on the run,
    and an object that gets displayed holds the number input under
    [include_fulltext] and 10 under [count]. *)
Theorem generate_button_misplaces_count
    (user_query textpresso_token openai_token : string)
    (include_fulltext include_all_sentences include_match_sentences : bool)
    (count : Z) :
  str_truthy (str_and (strip user_query) (strip openai_token)) = true →
  script user_query textpresso_token openai_token
      include_fulltext include_all_sentences include_match_sentences count true =
    match make_json_query (VStr user_query) (VStr textpresso_token)
            (VStr openai_token) (VInt count) (VBool false) (VBool false)
            (VInt 10) with
    | Ok result => ([st_title page_title; st_json result], None)
    | Raise e => ([st_title page_title], Some e)
    end ∧
  (∀ fulltext' all_sentences' match_sentences' : bool,
     script user_query textpresso_token openai_token
       fulltext' all_sentences' match_sentences' count true =
     script user_query textpresso_token openai_token
       include_fulltext include_all_sentences include_match_sentences count true) ∧
  (∀ result,
     st_json result ∈
       (script user_query textpresso_token openai_token
          include_fulltext include_all_sentences include_match_sentences
          count true).1 →
     ∃ envelope, result = VDict envelope ∧
       envelope !! "include_fulltext" = Some (VInt count) ∧
       envelope !! "include_all_sentences" = Some (VBool false) ∧
       envelope !! "include_match_sentences" = Some (VBool false) ∧
       envelope !! "count" = Some (VInt 10)).
Proof.
  intros Hfilled.
  assert (script user_query textpresso_token openai_token
      include_fulltext include_all_sentences include_match_sentences count true =
    match make_json_query (VStr user_query) (VStr textpresso_token)
            (VStr openai_token) (VInt count) (VBool false) (VBool false)
            (VInt 10) with
    | Ok result => ([st_title page_title; st_json result], None)
    | Raise e => ([st_title page_title], Some e)
    end) as Hrun.
  { unfold script. rewrite Hfilled, call_with_four. by destruct (make_json_query _ _ _ _ _ _ _). }
  split; [exact Hrun|]. split; [done|].
  intros result. rewrite Hrun.
  destruct (make_json_query _ _ _ _ _ _ _) as [r|e] eqn:Hcall; cbn.
  - rewrite !elem_of_cons, elem_of_nil. intros [?|[[= <-]|[]]]; [discriminate|].
    apply make_json_query_Ok_inv in Hcall as (d & _ & ->).
    eexists. split; [done|]. repeat split; by simplify_map_eq.
  - rewrite !elem_of_cons, elem_of_nil. intros [?|[]]. discriminate.
Qed.

End CallFacts.

(** ** [strip] *)

Lemma drop_chars_length (n : nat) (s : string) :
  String.length (drop_chars n s) = String.length s - n.
Proof. revert s. induction n as [|n IH]; intros [|c r]; cbn; auto with lia. Qed.

Lemma prefix_length (p s : string) :
  String.prefix p s = true → String.length p ≤ String.length s.
Proof.
  revert s. induction p as [|c p IH]; intros [|c' s]; cbn; try (discriminate || lia).
  destruct (Ascii.ascii_dec c c'); [|discriminate]. intros ?%IH. lia.
Qed.

Lemma prefix_of_empty (w : string) :
  0 < String.length w → String.prefix w EmptyString = false.
Proof. destruct w; cbn; [lia|done]. Qed.

(** The fuel of [lstrip] is enough: no whitespace is left at the head. *)
Lemma lstrip_of_done (ws : list string) (fuel : nat) (s : string) :
  Forall (λ w, 0 < String.length w) ws → String.length s ≤ fuel →
  List.find (λ w, String.prefix w (lstrip_of ws fuel s)) ws = None.
Proof.
  intros Hws. revert s. induction fuel as [|fuel IH]; intros s Hlen; cbn.
  - destruct s; [|cbn in Hlen; lia].
    destruct (List.find _ ws) as [w|] eqn:Hfind; [|done].
    apply find_some in Hfind as [Hw%list_elem_of_In Hp].
    eapply Forall_forall in Hws; [|done].
    rewrite prefix_of_empty in Hp; [done|lia].
  - destruct (List.find (λ w, String.prefix w s) ws) as [w|] eqn:Hfind; [|done].
    apply find_some in Hfind as [Hw%list_elem_of_In Hp]. apply prefix_length in Hp.
    apply IH. rewrite drop_chars_length.
    eapply Forall_forall in Hws; [|done]. lia.
Qed.

Lemma lstrip_done (s : string) :
  List.find (λ w, String.prefix w (lstrip s)) whitespace = None.
Proof.
  apply lstrip_of_done; [|done].
  unfold whitespace. rewrite Forall_fmap. repeat constructor.
Qed.

(** ** The reference decoder

    Every scanner consumes text when it succeeds, so the fuel [decode]
    starts with is never used up. *)

Lemma settles_bind {A B : Type} (s s' : string) (m : result (A * string))
    (f : A * string → result (B * string)) :
  settles s' m →
  (∀ a rest, String.length rest < String.length s' → settles s (f (a, rest))) →
  settles s (m ≫= f).
Proof. destruct m as [[a rest]|e]; cbn; auto. Qed.

Lemma skip_ws_length (s : string) :
  String.length (skip_ws s) ≤ String.length s.
Proof. induction s as [|c r IH]; cbn; [lia|]. destruct (is_ws c); cbn; lia. Qed.

Lemma take_digits_length (s ds rest : string) :
  take_digits s = (ds, rest) → String.length rest ≤ String.length s.
Proof.
  revert ds rest. induction s as [|c r IH]; cbn; intros ds rest.
  - intros [= <- <-]. cbn; lia.
  - destruct (is_digit c).
    + destruct (take_digits r) as [ds' rest'] eqn:Hr. intros [= <- <-].
      specialize (IH _ _ eq_refl). lia.
    + intros [= <- <-]. cbn; lia.
Qed.

Lemma take_one_of_length (cs : list ascii) (s one rest : string) :
  take_one_of cs s = (one, rest) → String.length rest ≤ String.length s.
Proof.
  destruct s as [|c r]; cbn; [intros [= <- <-]; cbn; lia|].
  case_bool_decide; intros [= <- <-]; cbn; lia.
Qed.

Lemma scanstring_from_settles (n : nat) :
  ∀ high s, String.length s ≤ n → settles s (scanstring_from high s).
Proof.
  induction n as [|n IH]; intros high [|c r] Hlen; cbn in Hlen |- *;
    try done; try lia.
  assert (∀ high' r' (f : string * string → result (string * string)),
    String.length r' ≤ String.length r →
    (∀ chars rest, ∃ chars', f (chars, rest) = Ok (chars', rest)) →
    settles (String c r) (scanstring_from high' r' ≫= f)) as Hstep.
  { intros high' r' f Hr' Hf. eapply settles_bind; [apply IH; lia|].
    intros chars rest Hrest. destruct (Hf chars rest) as [chars' ->]. cbn in *. lia. }
  destruct (Ascii.eqb c dq_char); [cbn; lia|].
  destruct (Ascii.eqb c "\").
  - destruct r as [|esc r']; [done|]. cbn in Hlen.
    destruct (Ascii.eqb esc "u").
    + destruct r' as [|h1 [|h2 [|h3 [|h4 r'']]]]; try done. cbn in Hlen.
      destruct (decode_uXXXX _) as [[uni ?]|e] eqn:Hu; cbn.
      2:{ unfold decode_uXXXX in Hu. repeat case_match; by simplify_eq. }
      destruct high as [hi|].
      * destruct (is_low_surrogate uni); [|destruct (is_high_surrogate uni)];
          (apply Hstep; [cbn; lia|eauto]).
      * destruct (is_high_surrogate uni).
        -- specialize (IH (Some uni) r'' ltac:(lia)).
           destruct (scanstring_from _ r'') as [[??]|?]; cbn in *; [lia|done].
        -- apply Hstep; [cbn; lia|eauto].
    + destruct (backslash esc); [|done]. apply Hstep; [cbn; lia|eauto].
  - case_match; [done|]. apply Hstep; [cbn; lia|eauto].
Qed.

Lemma scanstring_settles (s : string) : settles s (scanstring s).
Proof. by apply (scanstring_from_settles (String.length s)). Qed.

Lemma match_literal_shorter (lit : string) (v v' : value) (s rest : string) :
  0 < String.length lit →
  match_literal lit v s = Some (v', rest) → String.length rest < String.length s.
Proof.
  unfold match_literal. intros Hlit.
  destruct (String.prefix lit s) eqn:Hp; [|done]. intros [= _ <-].
  apply prefix_length in Hp. rewrite drop_chars_length. lia.
Qed.

Lemma match_integer_shorter (s integer rest : string) :
  match_integer s = Some (integer, rest) → String.length rest < String.length s.
Proof.
  unfold match_integer.
  destruct (take_one_of _ s) as [sign r] eqn:Hsign.
  apply take_one_of_length in Hsign.
  destruct r as [|c r']; [done|]. cbn in Hsign.
  destruct (Ascii.eqb c "0"); [intros [= _ <-]; lia|].
  destruct (is_digit c); [|done].
  destruct (take_digits r') as [ds rest'] eqn:Hds.
  apply take_digits_length in Hds. intros [= _ <-]. lia.
Qed.

Lemma match_frac_length (s frac rest : string) :
  match_frac s = (frac, rest) → String.length rest ≤ String.length s.
Proof.
  unfold match_frac.
  destruct (take_one_of _ s) as [dot r] eqn:Hdot.
  destruct (take_digits r) as [ds rest'] eqn:Hds.
  apply take_one_of_length in Hdot. apply take_digits_length in Hds.
  destruct dot, ds; intros [= _ <-]; lia.
Qed.

Lemma match_exp_length (s exp rest : string) :
  match_exp s = (exp, rest) → String.length rest ≤ String.length s.
Proof.
  unfold match_exp.
  destruct (take_one_of _ s) as [e r] eqn:He.
  destruct (take_one_of _ r) as [sign r'] eqn:Hsign.
  destruct (take_digits r') as [ds rest'] eqn:Hds.
  apply take_one_of_length in He, Hsign. apply take_digits_length in Hds.
  destruct e, ds; intros [= _ <-]; lia.
Qed.

Lemma match_number_shorter (s rest : string) (v : value) :
  match_number s = Some (v, rest) → String.length rest < String.length s.
Proof.
  unfold match_number.
  destruct (match_integer s) as [[integer r]|] eqn:Hint; [|done].
  destruct (match_frac r) as [frac r'] eqn:Hfrac.
  destruct (match_exp r') as [exp r''] eqn:Hexp.
  apply match_integer_shorter in Hint. apply match_frac_length in Hfrac.
  apply match_exp_length in Hexp.
  destruct (frac +:+ exp); intros [= _ <-]; lia.
Qed.

Lemma scan_scalar_settles (s : string) : settles s (scan_scalar s).
Proof.
  assert (Forall (λ o, ∀ v rest, o = Some (v, rest) →
            String.length rest < String.length s) (scalars s)) as Hall.
  { unfold scalars. repeat apply Forall_cons_2; try apply Forall_nil_2;
      intros v rest; first [apply match_number_shorter|apply match_literal_shorter; cbn; lia]. }
  unfold scan_scalar. induction Hall as [|o l Ho _ IH]; [done|].
  destruct o as [[v rest]|]; cbn; [by eapply Ho|apply IH].
Qed.

Lemma skip_ws_accept (c : ascii) (s rest : string) :
  accept c s = Some rest → String.length rest < String.length s.
Proof.
  unfold accept. pose proof (skip_ws_length s).
  destruct (skip_ws s) as [|c' r]; [done|].
  destruct (Ascii.eqb c' c); [|done]. intros [= <-]. cbn in *. lia.
Qed.

Lemma expect_shorter (c : ascii) (msg : string) (s : string) :
  match expect c msg s with
  | Ok rest => String.length rest < String.length s
  | Raise e => e ≠ RecursionError
  end.
Proof.
  unfold expect. pose proof (skip_ws_length s).
  destruct (skip_ws s) as [|c' r]; [done|].
  destruct (Ascii.eqb c' c); [|done]. cbn in *. lia.
Qed.

(** Fuel twice the length of the text, and two more, is enough. *)
Lemma scanner_settles (fuel : nat) :
  (∀ s, 2 * String.length s + 1 ≤ fuel → settles s (scan_once fuel s)) ∧
  (∀ s values, 2 * String.length s + 2 ≤ fuel →
     settles s (array_items fuel s values)) ∧
  (∀ s pairs, 2 * String.length s + 2 ≤ fuel →
     settles s (object_pairs fuel s pairs)).
Proof.
  induction fuel as [|fuel (IHs & IHa & IHo)].
  { repeat split; intros; lia. }
  split; [|split].
  - intros [|c r] Hfuel; [done|]. cbn [scan_once]. cbn in Hfuel.
    destruct (Ascii.eqb c dq_char).
    { eapply settles_bind; [apply scanstring_settles|]. intros; cbn; lia. }
    destruct (Ascii.eqb c "{").
    { destruct (accept "}" r) as [rest|] eqn:Hacc.
      - apply skip_ws_accept in Hacc. cbn. lia.
      - pose proof (expect_shorter dq_char
          "Expecting property name enclosed in double quotes" r) as Hexp.
        destruct (expect _ _ r) as [r'|e]; [|done]. cbn.
        specialize (IHo r' ∅ ltac:(lia)).
        destruct (object_pairs fuel r' ∅) as [[??]|?]; cbn in *; [lia|done]. }
    destruct (Ascii.eqb c "[").
    { destruct (accept "]" r) as [rest|] eqn:Hacc.
      - apply skip_ws_accept in Hacc. cbn. lia.
      - pose proof (skip_ws_length r).
        specialize (IHa (skip_ws r) [] ltac:(lia)).
        destruct (array_items fuel _ []) as [[??]|?]; cbn in *; [lia|done]. }
    apply scan_scalar_settles.
  - intros s values Hfuel. cbn [array_items].
    eapply settles_bind; [apply IHs; lia|]. intros v rest Hrest.
    destruct (accept "]" rest) as [rest'|] eqn:Hacc.
    { apply skip_ws_accept in Hacc. cbn. lia. }
    pose proof (expect_shorter "," "Expecting ',' delimiter" rest) as Hexp.
    destruct (expect _ _ rest) as [r|e]; [|done]. cbn.
    pose proof (skip_ws_length r).
    specialize (IHa (skip_ws r) (values ++ [v]) ltac:(lia)).
    destruct (array_items fuel _ _) as [[??]|?]; cbn in *; [lia|done].
  - intros s pairs Hfuel. cbn [object_pairs].
    eapply settles_bind; [apply scanstring_settles|]. intros key rest Hrest.
    pose proof (expect_shorter ":" "Expecting ':' delimiter" rest) as Hexp.
    destruct (expect _ _ rest) as [r|e]; [|done]. cbn.
    pose proof (skip_ws_length r).
    eapply settles_bind; [apply IHs; lia|]. intros v rest' Hrest'.
    destruct (accept "}" rest') as [rest''|] eqn:Hacc.
    { apply skip_ws_accept in Hacc. cbn. lia. }
    pose proof (expect_shorter "," "Expecting ',' delimiter" rest') as Hexp'.
    destruct (expect _ _ rest') as [r'|e]; [|done]. cbn.
    pose proof (expect_shorter dq_char
      "Expecting property name enclosed in double quotes" r') as Hexp''.
    destruct (expect _ _ r') as [r''|e]; [|done]. cbn.
    specialize (IHo r'' (<[key := v]> pairs) ltac:(lia)).
    destruct (object_pairs fuel r'' _) as [[??]|?]; cbn in *; [lia|done].
Qed.

(** The decoder always comes to an answer: it never gives up for lack of
    fuel. *)
Lemma loads_total (reply : option string) :
  ∃ outcome, loads reply = outcome ∧ outcome ≠ Raise RecursionError.
Proof.
  eexists. split; [done|]. destruct reply as [s|]; [|done]. unfold loads.
  destruct (String.prefix _ s); [done|]. unfold decode.
  pose proof (skip_ws_length s).
  destruct (scanner_settles (2 * String.length s + 2)) as (Hs & _ & _).
  specialize (Hs (skip_ws s) ltac:(lia)).
  destruct (scan_once _ _) as [[obj rest]|e]; cbn in *; [|congruence].
  by destruct (skip_ws rest).
Qed.

(** ** The decoder and the scenario at concrete inputs *)

Example decode_scenario_reply :
  loads (Some scenario_reply) = Ok (VDict scenario_object).
Proof. vm_compute. reflexivity. Qed.

Example decode_meddling_reply :
  loads (Some meddling_reply) = Ok (VDict meddling_object).
Proof. vm_compute. reflexivity. Qed.

Example decode_array :
  loads (Some "[1, -20, 2.5e3, true, false, null, [], {}]") =
  Ok (VList [VInt 1; VInt (-20); VFloat "2.5e3"; VBool true; VBool false;
             VNone; VList []; VDict ∅]).
Proof. vm_compute. reflexivity. Qed.

Example decode_rejects_prose :
  loads (Some "maize AND (plant height)") = Raise (JSONDecodeError "Expecting value").
Proof. vm_compute. reflexivity. Qed.

(** The three constants outside the JSON grammar that Python's decoder
    accepts as floats. *)
Example decode_accepts_constants :
  loads (Some "[NaN, Infinity, -Infinity]") =
  Ok (VList [VFloat "NaN"; VFloat "Infinity"; VFloat "-Infinity"]).
Proof. vm_compute. reflexivity. Qed.

Example decode_rejects_trailing_text :
  loads (Some "{} {}") = Raise (JSONDecodeError "Extra data").
Proof. vm_compute. reflexivity. Qed.

(** A failed call to the model is the failure of [make_json_query]. *)
Example model_failure_example :
  @make_json_query (failing (OpenAIError "401 Unauthorized")) python_json
    (VStr "maize plant height") (VStr "T") (VStr "sk-model")
    (VBool false) (VBool false) (VBool false) (VInt 10) =
  Raise (OpenAIError "401 Unauthorized").
Proof. reflexivity. Qed.

(** A reply whose content is missing is refused by the decoder. *)
Example missing_content_example :
  @make_json_query (answering [None]) python_json
    (VStr "maize plant height") (VStr "T") (VStr "sk-model")
    (VBool false) (VBool false) (VBool false) (VInt 10) =
  Raise (TypeError "the JSON object must be str, bytes or bytearray, not NoneType").
Proof. reflexivity. Qed.

(** C10. The documented scenario: with the reply [scenario_reply] (an
    object whose only key is the query, with its keywords), token T, the
    three flags False and count 10, the call returns the object with
    exactly [token], [query], the three flags and [count] as expected, and
    no [since_num]; with a reply that holds a [since_num], the returned
    object holds the same one. *)
Theorem maize_scenario (openai_token : value) :
  @make_json_query (replying scenario_reply) python_json
    (VStr "maize plant height") (VStr "T") openai_token
    (VBool false) (VBool false) (VBool false) (VInt 10) =
    Ok (VDict scenario_envelope) ∧
  scenario_envelope !! "since_num" = None ∧
  ∃ envelope,
    @make_json_query (replying meddling_reply) python_json
      (VStr "maize plant height") (VStr "T") openai_token
      (VBool false) (VBool false) (VBool false) (VInt 10) =
      Ok (VDict envelope) ∧
    envelope !! "since_num" = Some (VInt 20).
Proof.
  split; [vm_compute; reflexivity|]. split; [vm_compute; reflexivity|].
  eexists. split; vm_compute; reflexivity.
Qed.

(** ** The theorems at concrete inputs *)

Lemma overlay_fields_witness :
  @parsed_reply (replying meddling_reply) python_json
    (VStr "maize plant height") (VStr "sk-model") = Ok (VDict meddling_object) ∧
  ∃ envelope,
    @make_json_query (replying meddling_reply) python_json
      (VStr "maize plant height") (VStr "T") (VStr "sk-model")
      (VBool false) (VBool false) (VBool false) (VInt 10) = Ok (VDict envelope) ∧
    envelope !! "token" = Some (VStr "T") ∧
    envelope !! "include_fulltext" = Some (VBool false) ∧
    envelope !! "include_all_sentences" = Some (VBool false) ∧
    envelope !! "include_match_sentences" = Some (VBool false) ∧
    envelope !! "count" = Some (VInt 10).
Proof.
  assert (@parsed_reply (replying meddling_reply) python_json
    (VStr "maize plant height") (VStr "sk-model") = Ok (VDict meddling_object))
    as Hparsed by (vm_compute; reflexivity).
  split; [exact Hparsed|].
  exact (overlay_fields_are_the_arguments _ _ _ _ _ _ _ _ Hparsed).
Defined.

Lemma other_fields_witness :
  @parsed_reply (replying meddling_reply) python_json
    (VStr "maize plant height") (VStr "sk-model") = Ok (VDict meddling_object) ∧
  ∃ envelope,
    @make_json_query (replying meddling_reply) python_json
      (VStr "maize plant height") (VStr "T") (VStr "sk-model")
      (VBool false) (VBool false) (VBool false) (VInt 10) = Ok (VDict envelope) ∧
    (∀ key, key ∉ overlay_keys → envelope !! key = meddling_object !! key) ∧
    envelope !! "query" = meddling_object !! "query".
Proof.
  assert (@parsed_reply (replying meddling_reply) python_json
    (VStr "maize plant height") (VStr "sk-model") = Ok (VDict meddling_object))
    as Hparsed by (vm_compute; reflexivity).
  split; [exact Hparsed|].
  exact (other_fields_pass_through _ _ _ _ _ _ _ _ Hparsed).
Defined.

Lemma non_object_reply_witness :
  @parsed_reply (replying "[1, 2]") python_json
    (VStr "maize plant height") (VStr "sk-model") = Ok (VList [VInt 1; VInt 2]) ∧
  is_dict (VList [VInt 1; VInt 2]) = false ∧
  ∃ msg,
    @make_json_query (replying "[1, 2]") python_json
      (VStr "maize plant height") (VStr "T") (VStr "sk-model")
      (VBool false) (VBool false) (VBool false) (VInt 10) = Raise (TypeError msg).
Proof.
  assert (@parsed_reply (replying "[1, 2]") python_json
    (VStr "maize plant height") (VStr "sk-model") = Ok (VList [VInt 1; VInt 2]))
    as Hparsed by (vm_compute; reflexivity).
  split; [exact Hparsed|]. split; [reflexivity|].
  exact (non_object_reply_fails _ _ _ _ _ _ _ _ Hparsed eq_refl).
Defined.

Lemma generate_button_witness :
  str_truthy (str_and (strip "maize plant height") (strip "sk-model")) = true ∧
  @script (replying scenario_reply) python_json
    "maize plant height" "T" "sk-model" true true true 25 true =
    ([st_title page_title;
      st_json (VDict (<["include_fulltext" := VInt 25]> scenario_envelope))],
     None).
Proof.
  assert (str_truthy (str_and (strip "maize plant height") (strip "sk-model")) = true)
    as Hfilled by (vm_compute; reflexivity).
  split; [exact Hfilled|].
  destruct (@generate_button_misplaces_count (replying scenario_reply) python_json
    "maize plant height" "T" "sk-model" true true true 25 Hfilled) as [-> _].
  vm_compute. reflexivity.
Defined.

Lemma same_reply_witness :
  @model_reply (answering [Some scenario_reply])
    (VStr "maize plant height") (VStr "sk-model") =
  @model_reply (answering [Some scenario_reply; Some "[]"])
    (VStr "maize plant height") (VStr "sk-model") ∧
  @make_json_query (answering [Some scenario_reply]) python_json
    (VStr "maize plant height") (VStr "T") (VStr "sk-model")
    (VBool false) (VBool false) (VBool false) (VInt 10) =
  @make_json_query (answering [Some scenario_reply; Some "[]"]) python_json
    (VStr "maize plant height") (VStr "T") (VStr "sk-model")
    (VBool false) (VBool false) (VBool false) (VInt 10).
Proof.
  assert (@model_reply (answering [Some scenario_reply])
      (VStr "maize plant height") (VStr "sk-model") =
    @model_reply (answering [Some scenario_reply; Some "[]"])
      (VStr "maize plant height") (VStr "sk-model")) as Hsame by reflexivity.
  split; [exact Hsame|].
  exact (same_reply_same_envelope python_json _ _ _ _ _ _ _ _ _ Hsame).
Defined.

Lemma count_is_not_clamped_witness :
  @parsed_reply (replying scenario_reply) python_json
    (VStr "maize plant height") (VStr "sk-model") = Ok (VDict scenario_object) ∧
  ∃ envelope,
    @make_json_query (replying scenario_reply) python_json
      (VStr "maize plant height") (VStr "T") (VStr "sk-model")
      (VBool false) (VBool false) (VBool false) (VInt (-3)) = Ok (VDict envelope) ∧
    envelope !! "count" = Some (VInt (-3)).
Proof.
  assert (@parsed_reply (replying scenario_reply) python_json
    (VStr "maize plant height") (VStr "sk-model") = Ok (VDict scenario_object))
    as Hparsed by (vm_compute; reflexivity).
  split; [exact Hparsed|].
  exact (count_is_not_clamped _ _ _ _ _ _ (-3) _ Hparsed).
Defined.

(** * Further properties *)

(** ** The envelope as a whole *)

Lemma overlay_union (t a b c n : value) (d : gmap string value) :
  overlay t a b c n ∪ d =
  <["count" := n]> (<["include_match_sentences" := c]>
    (<["include_all_sentences" := b]> (<["include_fulltext" := a]>
       (<["token" := t]> d)))).
Proof. unfold overlay. by rewrite <- !insert_union_l, (left_id_L ∅ (∪)). Qed.

Lemma dom_overlay (t a b c n : value) :
  dom (overlay t a b c n) = list_to_set overlay_keys.
Proof. unfold overlay. rewrite !dom_insert_L, dom_empty_L. set_solver. Qed.

Lemma size_overlay (t a b c n : value) : size (overlay t a b c n) = 5.
Proof.
  unfold overlay.
  rewrite !map_size_insert_None; [by rewrite map_size_empty|..]; by simplify_map_eq.
Qed.

Section EnvelopeFacts.
Context {sdk : OpenAI_SDK} {json : JsonModule}.
Implicit Types (q t k a b c n : value) (d : gmap string value) (e : exn).

(** X1. When the reply decodes to an object, the returned object is that
    object with the five assigned keys laid over it and nothing else
    changed: its keys are the reply's and the five, so it has at least five
    keys and at most five more than the reply. *)
Theorem envelope_is_overlay_over_reply q t k a b c n d :
  parsed_reply q k = Ok (VDict d) →
  make_json_query q t k a b c n = Ok (VDict (overlay t a b c n ∪ d)) ∧
  dom (overlay t a b c n ∪ d) = list_to_set overlay_keys ∪ dom d ∧
  5 ≤ size (overlay t a b c n ∪ d) ∧
  size d ≤ size (overlay t a b c n ∪ d) ≤ size d + 5.
Proof.
  intros Hd. split; [by rewrite overlay_union; apply make_json_query_dict|].
  assert (dom (overlay t a b c n ∪ d) = dom (overlay t a b c n) ∪ dom d) as Hdom
    by apply dom_union_L.
  split; [by rewrite Hdom, dom_overlay|].
  rewrite <- !size_dom, Hdom. pose proof (size_overlay t a b c n) as H5.
  rewrite <- size_dom in H5. clear Hdom Hd.
  generalize dependent (dom (overlay t a b c n)). intros O H5.
  pose proof (size_union_alt O (dom d)) as Hu.
  assert (size (dom d ∖ O) ≤ size (dom d))
    by (by apply subseteq_size, subseteq_difference_l).
  assert (size (dom d) ≤ size (O ∪ dom d))
    by apply subseteq_size, union_subseteq_r.
  lia.
Qed.

(** X2. Whatever the function returns is an object: a reply that decoded to
    an object, with the five keys laid over it, each of them present. It
    never returns an array or a scalar. *)
Theorem result_is_an_object q t k a b c n result :
  make_json_query q t k a b c n = Ok result →
  ∃ envelope d, result = VDict envelope ∧ parsed_reply q k = Ok (VDict d) ∧
    envelope = overlay t a b c n ∪ d ∧
    ∀ key, key ∈ overlay_keys → is_Some (envelope !! key).
Proof.
  intros (d & Hd & ->)%make_json_query_Ok_inv.
  eexists _, d. split; [done|]. split; [done|].
  split; [by rewrite overlay_union|].
  intros key Hkey. unfold overlay_keys in Hkey.
  rewrite !elem_of_cons, elem_of_nil in Hkey.
  destruct Hkey as [->|[->|[->|[->|[->|[]]]]]]; by simplify_map_eq.
Qed.

(** X3. Whether the call fails, and with which exception, does not depend
    on the token, the three flags or the count: a call that raises keeps
    raising the same exception when these are changed. *)
Theorem failure_ignores_overlay_arguments q k t a b c n t' a' b' c' n' e :
  make_json_query q t k a b c n = Raise e →
  make_json_query q t' k a' b' c' n' = Raise e.
Proof.
  rewrite !make_json_query_parsed.
  destruct (parsed_reply q k) as [v|e']; [|done].
  by destruct v.
Qed.

(** X4. A completion that comes back without any choice makes the call
    raise IndexError, at [choices[0]]. *)
Theorem no_choices_is_an_IndexError q t k a b c n client response :
  OpenAI k = Ok client →
  chat_completions_create client (chat_request q) = Ok response →
  choices response = [] →
  make_json_query q t k a b c n = Raise (IndexError "list index out of range").
Proof.
  intros Hclient Hresponse Hnone. unfold make_json_query.
  rewrite Hclient. cbn. rewrite Hresponse. cbn. by rewrite Hnone.
Qed.

End EnvelopeFacts.

(** X5. Feeding an object the function returned back as the reply of a
    second call with the same token, flags and count gives that object
    again. *)
Theorem overlay_is_idempotent (json : JsonModule) (sdk1 sdk2 : OpenAI_SDK)
    (q1 k1 q2 k2 t a b c n : value) (envelope : gmap string value) :
  @make_json_query sdk1 json q1 t k1 a b c n = Ok (VDict envelope) →
  @parsed_reply sdk2 json q2 k2 = Ok (VDict envelope) →
  @make_json_query sdk2 json q2 t k2 a b c n = Ok (VDict envelope).
Proof.
  intros (d & _ & [= ->])%make_json_query_Ok_inv Hsecond.
  rewrite (make_json_query_dict _ _ _ _ _ _ _ _ Hsecond).
  by rewrite <- !overlay_union, (assoc_L (∪)), (idemp_L (∪)).
Qed.

Lemma message_is_built (role text : string) :
  message_is role text (VDict {[ "role" := VStr role; "content" := VStr text ]}) = true.
Proof.
  unfold message_is.
  rewrite lookup_insert_eq, lookup_insert_ne, lookup_singleton_eq by done.
  rewrite map_size_insert_None, map_size_singleton by done.
  cbn. by rewrite !String.eqb_refl.
Qed.

Lemma chat_request_expected (user_query : string) :
  expected_request user_query (chat_request (VStr user_query)) = true.
Proof.
  unfold expected_request, chat_request.
  cbn [model temperature response_format messages].
  rewrite !message_is_built, lookup_singleton_eq, map_size_singleton. reflexivity.
Qed.

(** X6. The request is the one the source spells out: model gpt-4o-mini,
    temperature 0, reply format json_object, and two messages, the system
    one with [system_prompt] and the user one with the query text as it was
    passed, untrimmed. An endpoint that refuses any other request changes
    the outcome of no call. *)
Theorem request_is_as_written (sdk : OpenAI_SDK) (json : JsonModule)
    (user_query : string) (t k a b c n : value) :
  @make_json_query (requiring (expected_request user_query) sdk) json
    (VStr user_query) t k a b c n =
  @make_json_query sdk json (VStr user_query) t k a b c n.
Proof.
  unfold make_json_query. cbn.
  destruct (OpenAI k) as [client|]; [|done]. cbn.
  by rewrite chat_request_expected.
Qed.

(** ** Ill-formed calls *)

Section CallErrors.
Context {sdk : OpenAI_SDK} {json : JsonModule}.

Lemma bound_by_position (args : list value) (name : string) (i : nat) :
  i < length args → parameters !! i = Some name →
  is_Some ((list_to_map (zip parameters args) : gmap string value) !! name).
Proof.
  intros [x Hx]%lookup_lt_is_Some_2 Hname.
  apply not_eq_None_Some. intros Hnot%not_elem_of_list_to_map.
  apply Hnot, list_elem_of_fmap. exists (name, x). split; [done|].
  apply list_elem_of_lookup. exists i. apply lookup_zip_Some. done.
Qed.

Lemma bind_keyword_Ok (env : gmap string value) (name : string) (v : value) :
  bind_keyword (Ok env) (name, v) =
  if bool_decide (name ∈ parameters) then
    match env !! name with
    | Some _ => Raise (TypeError "got multiple values for argument")
    | None => Ok (<[name := v]> env)
    end
  else Raise (TypeError "got an unexpected keyword argument").
Proof. reflexivity. Qed.

(** X8. A keyword argument that names no parameter, or a parameter
    already given by position, makes the call raise TypeError. *)
Theorem misused_keyword_is_a_TypeError (args : list value) (name : string) (v : value) :
  name ∉ parameters ∨ (∃ i, i < length args ∧ parameters !! i = Some name) →
  ∃ msg, call_make_json_query args [(name, v)] = Raise (TypeError msg).
Proof.
  intros Hbad. unfold call_make_json_query, bind_arguments.
  case_bool_decide; [|by eexists]. cbn [foldl]. rewrite bind_keyword_Ok.
  destruct Hbad as [Hunknown|(i & Hi & Hname)].
  - rewrite bool_decide_eq_false_2 by done. by eexists.
  - rewrite bool_decide_eq_true_2 by (by eapply list_elem_of_lookup_2).
    destruct (bound_by_position args name i Hi Hname) as [x ->]. by eexists.
Qed.

End CallErrors.

(** ** What [strip] does to plain text *)

Lemma str_truthy_and (a b : string) :
  str_truthy (str_and a b) = str_truthy a && str_truthy b.
Proof. unfold str_and. by destruct (str_truthy a) eqn:Ha. Qed.

Lemma str_truthy_nonempty (s : string) :
  0 < String.length s → str_truthy s = true.
Proof. destruct s; cbn; [lia|done]. Qed.

Lemma ascii_space_found (c : ascii) (r : string) :
  is_ascii_space c = true →
  List.find (λ w, String.prefix w (String c r)) whitespace =
  Some (String c EmptyString).
Proof.
  unfold is_ascii_space. intros Hc%bool_decide_eq_true_1.
  rewrite !elem_of_cons, elem_of_nil in Hc.
  assert (∀ m, nat_of_ascii c = m → c = ascii_of_nat m) as Hback
    by (intros m <-; by rewrite ascii_nat_embedding).
  destruct Hc as [Hc|[Hc|[Hc|[Hc|[Hc|[Hc|[Hc|[Hc|[Hc|[Hc|[]]]]]]]]]]];
    apply Hback in Hc; subst c; by destruct r.
Qed.

Lemma lstrip_of_ascii_space (fuel : nat) (s : string) :
  all_chars is_ascii_space s = true → String.length s ≤ fuel →
  lstrip_of whitespace fuel s = EmptyString.
Proof.
  revert s. induction fuel as [|fuel IH]; intros [|c r]; cbn [all_chars String.length];
    try done; try lia.
  intros [Hc Hr]%andb_prop Hlen.
  cbn [lstrip_of]. rewrite ascii_space_found by done.
  cbn [drop_chars String.length]. apply IH; [done|lia].
Qed.

Lemma strip_ascii_space (s : string) :
  all_chars is_ascii_space s = true → strip s = EmptyString.
Proof.
  intros Hs. unfold strip, lstrip. by rewrite lstrip_of_ascii_space.
Qed.

Lemma prefix_split (w s : string) :
  String.prefix w s = true → s = w +:+ drop_chars (String.length w) s.
Proof.
  revert s. induction w as [|c w IH]; intros [|c' s]; cbn; try done.
  destruct (Ascii.ascii_dec c c') as [->|]; [|done]. intros Hp.
  change (String c' s = String c' (w +:+ drop_chars (String.length w) s)).
  f_equal. by apply IH.
Qed.

Lemma count_chars_app (p : ascii → bool) (s1 s2 : string) :
  count_chars p (s1 +:+ s2) = count_chars p s1 + count_chars p s2.
Proof. induction s1 as [|c s1 IH]; simpl; [done|]. rewrite IH. lia. Qed.

Lemma count_chars_rev_app (p : ascii → bool) (s1 s2 : string) :
  count_chars p (String.rev_app s1 s2) = count_chars p s1 + count_chars p s2.
Proof.
  revert s2. induction s1 as [|c s1 IH]; intros s2; simpl; [done|].
  rewrite IH. simpl. lia.
Qed.

Lemma count_chars_rev (p : ascii → bool) (s : string) :
  count_chars p (String.rev s) = count_chars p s.
Proof. unfold String.rev. rewrite count_chars_rev_app. cbn. lia. Qed.

Lemma count_chars_length (p : ascii → bool) (s : string) :
  count_chars p s ≤ String.length s.
Proof. induction s as [|c s IH]; cbn; [done|]. destruct (p c); lia. Qed.

(** Removing leading patterns that hold no character of a kind leaves the
    number of characters of that kind unchanged. *)
Lemma count_chars_lstrip_of (p : ascii → bool) (ws : list string)
    (fuel : nat) (s : string) :
  Forall (λ w, count_chars p w = 0) ws →
  count_chars p (lstrip_of ws fuel s) = count_chars p s.
Proof.
  intros Hws. revert s. induction fuel as [|fuel IH]; intros s; cbn; [done|].
  destruct (List.find _ ws) as [w|] eqn:Hfind; [|done].
  apply find_some in Hfind as [Hw%list_elem_of_In Hp].
  rewrite IH. rewrite (prefix_split w s Hp) at 2. rewrite count_chars_app.
  eapply Forall_forall in Hws; [|done]. lia.
Qed.

Lemma whitespace_not_visible :
  Forall (λ w, count_chars is_visible w = 0) whitespace ∧
  Forall (λ w, count_chars is_visible w = 0) (String.rev <$> whitespace).
Proof. split; unfold whitespace; rewrite ?Forall_fmap; repeat constructor. Qed.

(** [strip] removes no visible character. *)
Lemma count_visible_strip (s : string) :
  count_chars is_visible (strip s) = count_chars is_visible s.
Proof.
  destruct whitespace_not_visible as [Hw Hr].
  unfold strip, rstrip, lstrip.
  rewrite count_chars_rev, (count_chars_lstrip_of _ _ _ _ Hr), count_chars_rev.
  by apply count_chars_lstrip_of.
Qed.

Lemma visible_is_truthy (s : string) :
  0 < count_chars is_visible s → str_truthy (strip s) = true.
Proof.
  intros Hs. apply str_truthy_nonempty.
  pose proof (count_chars_length is_visible (strip s)).
  rewrite count_visible_strip in *. lia.
Qed.

Section ScriptFacts.
Context {sdk : OpenAI_SDK} {json : JsonModule}.

Lemma script_pressed (q t k : string) (a b c : bool) (n : Z) :
  script q t k a b c n true =
  if str_truthy (strip q) && str_truthy (strip k) then
    match make_json_query (VStr q) (VStr t) (VStr k) (VInt n) (VBool false)
            (VBool false) (VInt 10) with
    | Ok result => ([st_title page_title; st_json result], None)
    | Raise e => ([st_title page_title], Some e)
    end
  else ([st_title page_title; st_warning warning_text], None).
Proof.
  unfold script. rewrite str_truthy_and, call_with_four.
  destruct (_ && _); [|done]. by destruct (make_json_query _ _ _ _ _ _ _).
Qed.

(** On a run triggered by the button, a query or a model token that
    [strip] empties gives the warning and nothing else. *)
Theorem blank_field_shows_the_warning (q t k : string) (a b c : bool) (n : Z) :
  str_truthy (strip q) = false ∨ str_truthy (strip k) = false →
  script q t k a b c n true =
    ([st_title page_title; st_warning warning_text], None).
Proof.
  intros Hblank. rewrite script_pressed.
  destruct Hblank as [->| ->]; [done|]. by rewrite andb_false_r.
Qed.

(** X9. On a run triggered by the button, a query or a model token made
    only of spaces, tabs, line breaks and the like gives the warning, for
    every endpoint: no call is made. *)
Theorem spaces_only_never_reach_the_model (q t k : string) (a b c : bool) (n : Z) :
  all_chars is_ascii_space q = true ∨ all_chars is_ascii_space k = true →
  script q t k a b c n true =
    ([st_title page_title; st_warning warning_text], None).
Proof.
  intros Hblank. rewrite script_pressed.
  destruct Hblank as [Hs|Hs]; rewrite (strip_ascii_space _ Hs); [done|].
  by rewrite andb_false_r.
Qed.

(** X10. On a run triggered by the button, a query and a model token that
    each hold a visible character pass the check, and the run is the call
    with the two texts as typed, not stripped. *)
Theorem visible_text_reaches_the_model (q t k : string) (a b c : bool) (n : Z) :
  0 < count_chars is_visible q → 0 < count_chars is_visible k →
  script q t k a b c n true =
    match make_json_query (VStr q) (VStr t) (VStr k) (VInt n) (VBool false)
            (VBool false) (VInt 10) with
    | Ok result => ([st_title page_title; st_json result], None)
    | Raise e => ([st_title page_title], Some e)
    end.
Proof.
  intros Hq Hk. by rewrite script_pressed, !visible_is_truthy.
Qed.

(** X11. A run ends in one of four ways: the title alone (button not
    pressed); the title and the warning; the title and a displayed object
    that [make_json_query] returned; or the title and the exception that
    [make_json_query] raised. *)
Theorem script_outcomes (q t k : string) (a b c : bool) (n : Z) (button : bool)
    (shown : list st_call) (raised : option exn) :
  script q t k a b c n button = (shown, raised) →
  (button = false ∧ shown = [st_title page_title] ∧ raised = None) ∨
  (button = true ∧ shown = [st_title page_title; st_warning warning_text] ∧
     raised = None) ∨
  (button = true ∧ raised = None ∧
     ∃ envelope, shown = [st_title page_title; st_json (VDict envelope)] ∧
       make_json_query (VStr q) (VStr t) (VStr k) (VInt n) (VBool false)
         (VBool false) (VInt 10) = Ok (VDict envelope)) ∨
  (button = true ∧ shown = [st_title page_title] ∧
     ∃ e, raised = Some e ∧
       make_json_query (VStr q) (VStr t) (VStr k) (VInt n) (VBool false)
         (VBool false) (VInt 10) = Raise e).
Proof.
  destruct button; [|intros [= <- <-]; by left].
  rewrite script_pressed. destruct (_ && _).
  - destruct (make_json_query _ _ _ _ _ _ _) as [result|e] eqn:Hcall.
    + intros [= <- <-]. right; right; left. split; [done|]. split; [done|].
      destruct (make_json_query_Ok_inv _ _ _ _ _ _ _ _ Hcall) as (d & _ & ->).
      by eexists.
    + intros [= <- <-]. right; right; right. eauto.
  - intros [= <- <-]. right; left. done.
Qed.

(** X12. An object the script displays holds under [token] the Textpresso
    token exactly as typed, blank or not; and one is displayed only on a run
    triggered by the button with a query and a model token that are not
    blank. *)
Theorem displayed_token_is_as_typed (q t k : string) (a b c : bool) (n : Z)
    (button : bool) (result : value) :
  st_json result ∈ (script q t k a b c n button).1 →
  ∃ envelope, result = VDict envelope ∧ envelope !! "token" = Some (VStr t) ∧
    button = true ∧ str_truthy (strip q) = true ∧ str_truthy (strip k) = true.
Proof.
  destruct button; [|cbn; intros ?%list_elem_of_singleton; discriminate].
  rewrite script_pressed.
  destruct (str_truthy (strip q)), (str_truthy (strip k)); cbn [andb];
    try (cbn; rewrite !elem_of_cons, elem_of_nil; intros [?|[?|[]]]; discriminate).
  destruct (make_json_query _ _ _ _ _ _ _) as [r|e] eqn:Hcall; cbn;
    rewrite !elem_of_cons, elem_of_nil; [|intros [?|[]]; discriminate].
  intros [?|[[= <-]|[]]]; [discriminate|].
  apply make_json_query_Ok_inv in Hcall as (d & _ & ->).
  eexists. split; [done|]. split; [by simplify_map_eq|done].
Qed.

End ScriptFacts.

(** ** When the script contacts the model *)

(** X13. Against an endpoint whose call always fails, a run ends with that
    failure exactly when the button was pressed and neither the query nor
    the model token is blank: in every other case the model is not
    called. *)
Theorem model_is_contacted_exactly_when (json : JsonModule) (e : exn)
    (q t k : string) (a b c : bool) (n : Z) (button : bool) :
  @script (failing e) json q t k a b c n button = ([st_title page_title], Some e) ↔
  button = true ∧ str_truthy (strip q) = true ∧ str_truthy (strip k) = true.
Proof.
  destruct button; [|split; [intros [=]|intros [[=] _]]].
  rewrite script_pressed.
  destruct (str_truthy (strip q)), (str_truthy (strip k)); cbn;
    split; try done; try (intros [=]); intros (_ & Hq & Hk); discriminate.
Qed.

(** ** The further properties at concrete inputs *)

Lemma envelope_is_overlay_witness :
  @parsed_reply (replying meddling_reply) python_json
    (VStr "maize plant height") (VStr "sk-model") = Ok (VDict meddling_object) ∧
  @make_json_query (replying meddling_reply) python_json
    (VStr "maize plant height") (VStr "T") (VStr "sk-model")
    (VBool false) (VBool false) (VBool false) (VInt 10) =
    Ok (VDict (overlay (VStr "T") (VBool false) (VBool false) (VBool false)
                 (VInt 10) ∪ meddling_object)) ∧
  dom (overlay (VStr "T") (VBool false) (VBool false) (VBool false) (VInt 10)
         ∪ meddling_object) = list_to_set overlay_keys ∪ dom meddling_object ∧
  5 ≤ size (overlay (VStr "T") (VBool false) (VBool false) (VBool false)
              (VInt 10) ∪ meddling_object) ∧
  size meddling_object ≤
    size (overlay (VStr "T") (VBool false) (VBool false) (VBool false)
            (VInt 10) ∪ meddling_object) ≤ size meddling_object + 5.
Proof.
  assert (@parsed_reply (replying meddling_reply) python_json
    (VStr "maize plant height") (VStr "sk-model") = Ok (VDict meddling_object))
    as Hparsed by (vm_compute; reflexivity).
  split; [exact Hparsed|].
  exact (envelope_is_overlay_over_reply _ _ _ _ _ _ _ _ Hparsed).
Defined.

Lemma result_is_an_object_witness :
  @make_json_query (replying scenario_reply) python_json
    (VStr "maize plant height") (VStr "T") (VStr "sk-model")
    (VBool false) (VBool false) (VBool false) (VInt 10) =
    Ok (VDict scenario_envelope) ∧
  ∃ envelope d, VDict scenario_envelope = VDict envelope ∧
    @parsed_reply (replying scenario_reply) python_json
      (VStr "maize plant height") (VStr "sk-model") = Ok (VDict d) ∧
    envelope = overlay (VStr "T") (VBool false) (VBool false) (VBool false)
                 (VInt 10) ∪ d ∧
    ∀ key, key ∈ overlay_keys → is_Some (envelope !! key).
Proof.
  assert (@make_json_query (replying scenario_reply) python_json
    (VStr "maize plant height") (VStr "T") (VStr "sk-model")
    (VBool false) (VBool false) (VBool false) (VInt 10) =
    Ok (VDict scenario_envelope)) as Hcall by (vm_compute; reflexivity).
  split; [exact Hcall|].
  exact (result_is_an_object _ _ _ _ _ _ _ _ Hcall).
Defined.

Lemma failure_ignores_overlay_witness :
  @make_json_query (replying "[1, 2]") python_json
    (VStr "maize plant height") (VStr "T") (VStr "sk-model")
    (VBool false) (VBool false) (VBool false) (VInt 10) =
    Raise (TypeError "list indices must be integers or slices, not str") ∧
  @make_json_query (replying "[1, 2]") python_json
    (VStr "maize plant height") (VStr "another token") (VStr "sk-model")
    (VBool true) (VInt 7) VNone (VInt 500) =
    Raise (TypeError "list indices must be integers or slices, not str").
Proof.
  assert (@make_json_query (replying "[1, 2]") python_json
    (VStr "maize plant height") (VStr "T") (VStr "sk-model")
    (VBool false) (VBool false) (VBool false) (VInt 10) =
    Raise (TypeError "list indices must be integers or slices, not str"))
    as Hfails by (vm_compute; reflexivity).
  split; [exact Hfails|].
  exact (failure_ignores_overlay_arguments _ _ _ _ _ _ _ _ _ _ _ _ _ Hfails).
Defined.

Lemma no_choices_witness :
  @OpenAI (answering []) (VStr "sk-model") = Ok (VStr "sk-model") ∧
  @chat_completions_create (answering []) (VStr "sk-model")
    (chat_request (VStr "maize plant height")) = Ok {| choices := [] |} ∧
  choices {| choices := [] |} = [] ∧
  @make_json_query (answering []) python_json
    (VStr "maize plant height") (VStr "T") (VStr "sk-model")
    (VBool false) (VBool false) (VBool false) (VInt 10) =
    Raise (IndexError "list index out of range").
Proof.
  split; [reflexivity|]. split; [reflexivity|]. split; [reflexivity|].
  exact (@no_choices_is_an_IndexError (answering []) python_json
    (VStr "maize plant height") (VStr "T") (VStr "sk-model")
    (VBool false) (VBool false) (VBool false) (VInt 10)
    (VStr "sk-model") {| choices := [] |} eq_refl eq_refl eq_refl).
Defined.

Lemma overlay_is_idempotent_witness :
  @make_json_query (replying scenario_reply) python_json
    (VStr "maize plant height") (VStr "T") (VStr "sk-model")
    (VBool false) (VBool false) (VBool false) (VInt 10) =
    Ok (VDict scenario_envelope) ∧
  @parsed_reply (replying scenario_envelope_reply) python_json
    (VStr "maize again") (VStr "sk-other") = Ok (VDict scenario_envelope) ∧
  @make_json_query (replying scenario_envelope_reply) python_json
    (VStr "maize again") (VStr "T") (VStr "sk-other")
    (VBool false) (VBool false) (VBool false) (VInt 10) =
    Ok (VDict scenario_envelope).
Proof.
  assert (@make_json_query (replying scenario_reply) python_json
    (VStr "maize plant height") (VStr "T") (VStr "sk-model")
    (VBool false) (VBool false) (VBool false) (VInt 10) =
    Ok (VDict scenario_envelope)) as Hfirst by (vm_compute; reflexivity).
  assert (@parsed_reply (replying scenario_envelope_reply) python_json
    (VStr "maize again") (VStr "sk-other") = Ok (VDict scenario_envelope))
    as Hsecond by (vm_compute; reflexivity).
  split; [exact Hfirst|]. split; [exact Hsecond|].
  exact (overlay_is_idempotent python_json _ _ _ _ _ _ _ _ _ _ _ _ Hfirst Hsecond).
Defined.

Lemma misused_keyword_witness :
  ("include_fulltext" ∉ parameters ∨
   ∃ i, i < length [VStr "maize plant height"; VStr "T"; VStr "sk-model"; VInt 25] ∧
     parameters !! i = Some "include_fulltext") ∧
  ∃ msg,
    @call_make_json_query (replying scenario_reply) python_json
      [VStr "maize plant height"; VStr "T"; VStr "sk-model"; VInt 25]
      [("include_fulltext", VBool true)] = Raise (TypeError msg).
Proof.
  assert ("include_fulltext" ∉ parameters ∨
    ∃ i, i < length [VStr "maize plant height"; VStr "T"; VStr "sk-model"; VInt 25] ∧
      parameters !! i = Some "include_fulltext") as Htwice
    by (right; exists 3; split; [cbn; lia|reflexivity]).
  split; [exact Htwice|].
  exact (misused_keyword_is_a_TypeError _ _ _ Htwice).
Defined.

Lemma spaces_only_witness :
  (all_chars is_ascii_space "   " = true ∨
   all_chars is_ascii_space "sk-model" = true) ∧
  @script (replying scenario_reply) python_json
    "   " "T" "sk-model" true true true 25 true =
    ([st_title page_title; st_warning warning_text], None).
Proof.
  assert (all_chars is_ascii_space "   " = true ∨
          all_chars is_ascii_space "sk-model" = true) as Hblank
    by (left; reflexivity).
  split; [exact Hblank|].
  exact (spaces_only_never_reach_the_model _ _ _ _ _ _ _ Hblank).
Defined.

Lemma visible_text_witness :
  0 < count_chars is_visible " maize plant height " ∧
  0 < count_chars is_visible "sk-model" ∧
  @script (replying scenario_reply) python_json
    " maize plant height " "T" "sk-model" true true true 25 true =
    ([st_title page_title;
      st_json (VDict (<["include_fulltext" := VInt 25]> scenario_envelope))],
     None).
Proof.
  assert (0 < count_chars is_visible " maize plant height ") as Hq by (vm_compute; lia).
  assert (0 < count_chars is_visible "sk-model") as Hk by (vm_compute; lia).
  split; [exact Hq|]. split; [exact Hk|].
  rewrite (@visible_text_reaches_the_model (replying scenario_reply) python_json
    " maize plant height " "T" "sk-model" true true true 25 Hq Hk).
  vm_compute. reflexivity.
Defined.

Lemma script_outcomes_witness :
  @script (replying "[1, 2]") python_json
    "maize plant height" "T" "sk-model" true true true 25 true =
    ([st_title page_title],
     Some (TypeError "list indices must be integers or slices, not str")) ∧
  ((true = false ∧ [st_title page_title] = [st_title page_title] ∧
      Some (TypeError "list indices must be integers or slices, not str") = None) ∨
   (true = true ∧
      [st_title page_title] = [st_title page_title; st_warning warning_text] ∧
      Some (TypeError "list indices must be integers or slices, not str") = None) ∨
   (true = true ∧
      Some (TypeError "list indices must be integers or slices, not str") = None ∧
      ∃ envelope,
        [st_title page_title] = [st_title page_title; st_json (VDict envelope)] ∧
        @make_json_query (replying "[1, 2]") python_json
          (VStr "maize plant height") (VStr "T") (VStr "sk-model") (VInt 25)
          (VBool false) (VBool false) (VInt 10) = Ok (VDict envelope)) ∨
   (true = true ∧ [st_title page_title] = [st_title page_title] ∧
      ∃ e, Some (TypeError "list indices must be integers or slices, not str") =
             Some e ∧
        @make_json_query (replying "[1, 2]") python_json
          (VStr "maize plant height") (VStr "T") (VStr "sk-model") (VInt 25)
          (VBool false) (VBool false) (VInt 10) = Raise e)).
Proof.
  assert (@script (replying "[1, 2]") python_json
    "maize plant height" "T" "sk-model" true true true 25 true =
    ([st_title page_title],
     Some (TypeError "list indices must be integers or slices, not str")))
    as Hrun by (vm_compute; reflexivity).
  split; [exact Hrun|].
  exact (script_outcomes _ _ _ _ _ _ _ _ _ _ Hrun).
Defined.

Lemma displayed_token_witness :
  st_json (VDict (<["token" := VStr "  T "]>
                    (<["include_fulltext" := VInt 25]> scenario_envelope))) ∈
    (@script (replying scenario_reply) python_json
       "maize plant height" "  T " "sk-model" true true true 25 true).1 ∧
  ∃ envelope,
    VDict (<["token" := VStr "  T "]>
             (<["include_fulltext" := VInt 25]> scenario_envelope)) =
      VDict envelope ∧
    envelope !! "token" = Some (VStr "  T ") ∧
    true = true ∧ str_truthy (strip "maize plant height") = true ∧
    str_truthy (strip "sk-model") = true.
Proof.
  assert (st_json (VDict (<["token" := VStr "  T "]>
                    (<["include_fulltext" := VInt 25]> scenario_envelope))) ∈
    (@script (replying scenario_reply) python_json
       "maize plant height" "  T " "sk-model" true true true 25 true).1) as Hshown.
  { assert ((@script (replying scenario_reply) python_json
       "maize plant height" "  T " "sk-model" true true true 25 true).1 =
      [st_title page_title;
       st_json (VDict (<["token" := VStr "  T "]>
                  (<["include_fulltext" := VInt 25]> scenario_envelope)))]) as ->
      by (vm_compute; reflexivity).
    apply list_elem_of_further, list_elem_of_here. }
  split; [exact Hshown|].
  exact (displayed_token_is_as_typed _ _ _ _ _ _ _ _ _ Hshown).
Defined.

(** * The reply that is not valid JSON *)

(** ** The decoder and the grammar

    The reference decoder accepts exactly the texts of the grammar with the
    three constants. *)

Lemma expect_accept (c : ascii) (msg : string) (s : string) :
  expect c msg s =
  match accept c s with
  | Some r => Ok r
  | None => Raise (JSONDecodeError msg)
  end.
Proof.
  unfold expect, accept. destruct (skip_ws s) as [|c' r]; [done|].
  by destruct (Ascii.eqb c' c).
Qed.

Lemma grammar_scalar_decoder (s : string) :
  grammar_scalar true s = remainder (scan_scalar s).
Proof.
  unfold grammar_scalar, scan_scalar, scalars. cbn [app].
  by destruct (omap id _) as [|[v rest] l].
Qed.

Lemma grammar_matches_decoder (fuel : nat) :
  (∀ s, grammar_value true fuel s = remainder (scan_once fuel s)) ∧
  (∀ s values, grammar_elements true fuel s = remainder (array_items fuel s values)) ∧
  (∀ s pairs, grammar_members true fuel s = remainder (object_pairs fuel s pairs)).
Proof.
  induction fuel as [|fuel (IHv & IHe & IHm)]; [done|].
  split; [|split].
  - intros [|c r]; [done|]. cbn [grammar_value scan_once].
    destruct (Ascii.eqb c dq_char).
    { unfold grammar_string. by destruct (scanstring r) as [[chars rest]|e]. }
    destruct (Ascii.eqb c "{").
    { destruct (accept "}" r) as [rest|]; [done|].
      rewrite expect_accept. destruct (accept dq_char r) as [r'|]; [|done].
      apply IHm. }
    destruct (Ascii.eqb c "[").
    { destruct (accept "]" r) as [rest|]; [done|]. apply IHe. }
    apply grammar_scalar_decoder.
  - intros s values. cbn [grammar_elements array_items].
    rewrite IHv. destruct (scan_once fuel s) as [[v rest]|e]; [|done]. cbn.
    destruct (accept "]" rest) as [rest'|]; [done|].
    rewrite expect_accept. destruct (accept "," rest) as [r|]; [|done].
    apply IHe.
  - intros s pairs. cbn [grammar_members object_pairs]. unfold grammar_string.
    destruct (scanstring s) as [[key rest]|e]; [|done]. cbn.
    rewrite expect_accept. destruct (accept ":" rest) as [r|]; [|done]. cbn.
    rewrite IHv. destruct (scan_once fuel (skip_ws r)) as [[v rest']|e]; [|done]. cbn.
    destruct (accept "}" rest') as [rest''|]; [done|].
    rewrite expect_accept. destruct (accept "," rest') as [r'|]; [|done]. cbn.
    rewrite expect_accept. destruct (accept dq_char r') as [r''|]; [|done].
    apply IHm.
Qed.

Lemma json_text_decode (s : string) :
  json_text true s = true ↔ ∃ v, decode s = Ok v.
Proof.
  unfold json_text, decode.
  destruct (grammar_matches_decoder (2 * String.length s + 2)) as (-> & _ & _).
  destruct (scan_once _ _) as [[obj rest]|e]; cbn.
  - destruct (skip_ws rest) eqn:Hrest.
    + split; [by eexists|]. by intros _; apply bool_decide_eq_true_2.
    + split; [by intros ?%bool_decide_eq_true_1|]. by intros [v [=]].
  - split; [done|]. by intros [v [=]].
Qed.

(** A text that starts with a byte order mark does not decode either. *)
Lemma decode_byte_order_mark (s : string) :
  String.prefix (utf8_encode 65279) s = true → ∃ e, decode s = Raise e.
Proof.
  intros Hbom. apply prefix_split in Hbom. rewrite Hbom.
  generalize (drop_chars (String.length (utf8_encode 65279)) s). intros r.
  unfold decode. by eexists.
Qed.

(** The decoder accepts a text exactly when the grammar with the three
    constants does. *)
Lemma loads_accepts_the_extended_grammar (s : string) :
  json_text true s = true ↔ ∃ v, loads (Some s) = Ok v.
Proof.
  unfold loads. destruct (String.prefix _ s) eqn:Hbom.
  - destruct (decode_byte_order_mark s Hbom) as [e He].
    rewrite json_text_decode, He. split; intros [v [=]].
  - apply json_text_decode.
Qed.

(** ** The call on a reply the decoder rejects *)

(** C3, amended. A reply that json.loads rejects, that is, any text outside
    the JSON grammar extended with the constants NaN, Infinity and
    -Infinity, makes the call raise the decoder's exception. More generally,
    for every decoder, the exception of the failing step (building the
    client, the call to the model, a reply without choices, the decoding, an
    item assignment) is the outcome of the call: nothing is caught, and no
    object is returned. *)
Theorem rejected_reply_fails (sdk : OpenAI_SDK) (q t k a b c n : value) :
  (∀ text,
     @model_reply sdk q k = Ok (Some text) → json_text true text = false →
     ∃ e, loads (Some text) = Raise e ∧
       @make_json_query sdk python_json q t k a b c n = Raise e) ∧
  (∀ (json : JsonModule) (e : exn),
     (∃ reply, @model_reply sdk q k = Ok reply ∧ json_loads reply = Raise e) ∨
     @model_reply sdk q k = Raise e ∨
     (∃ v, @parsed_reply sdk json q k = Ok v ∧ setitem v "token" t = Raise e) →
     @make_json_query sdk json q t k a b c n = Raise e).
Proof.
  split.
  - intros text Hreply Hout.
    destruct (loads (Some text)) as [v|e] eqn:Hloads.
    + assert (json_text true text = true) as Hin
        by (apply loads_accepts_the_extended_grammar; eauto).
      congruence.
    + exists e. split; [done|].
      apply (@failures_propagate sdk python_json). left. by exists (Some text).
  - intros json e. apply failures_propagate.
Qed.

Lemma rejected_reply_witness :
  @model_reply (replying "maize AND (plant height)")
    (VStr "maize plant height") (VStr "sk-model") =
    Ok (Some "maize AND (plant height)") ∧
  json_text true "maize AND (plant height)" = false ∧
  ∃ e, loads (Some "maize AND (plant height)") = Raise e ∧
    @make_json_query (replying "maize AND (plant height)") python_json
      (VStr "maize plant height") (VStr "T") (VStr "sk-model")
      (VBool false) (VBool false) (VBool false) (VInt 10) = Raise e.
Proof.
  assert (json_text true "maize AND (plant height)" = false) as Hout
    by (vm_compute; reflexivity).
  split; [reflexivity|]. split; [exact Hout|].
  exact (proj1 (rejected_reply_fails (replying "maize AND (plant height)")
    (VStr "maize plant height") (VStr "T") (VStr "sk-model")
    (VBool false) (VBool false) (VBool false) (VInt 10))
    "maize AND (plant height)" eq_refl Hout).
Defined.

(** The claim as first worded fails: the reply [nan_reply] is not valid
    JSON, and the call returns an envelope for it. *)
Lemma nan_reply_is_accepted :
  valid_json nan_reply = false ∧
  @model_reply (replying nan_reply)
    (VStr "maize plant height") (VStr "sk-model") = Ok (Some nan_reply) ∧
  @make_json_query (replying nan_reply) python_json
    (VStr "maize plant height") (VStr "T") (VStr "sk-model")
    (VBool false) (VBool false) (VBool false) (VInt 10) = Ok (VDict nan_envelope).
Proof. repeat split; vm_compute; reflexivity. Qed.

(** ** Calls that leave a parameter unbound *)

Lemma bind_keyword_Raise (e : exn) (kw : string * value) :
  bind_keyword (Raise e) kw = Raise e.
Proof. reflexivity. Qed.

Lemma foldl_bind_keyword_Raise (e : exn) (kwargs : list (string * value)) :
  foldl bind_keyword (Raise e) kwargs = Raise e.
Proof. induction kwargs as [|kw kwargs IH]; [done|]. cbn [foldl]. by rewrite bind_keyword_Raise. Qed.

(** Binding keywords fails with a TypeError only, and binds no name other
    than the keywords'. *)
Lemma foldl_bind_keyword_spec (kwargs : list (string * value))
    (env : gmap string value) :
  match foldl bind_keyword (Ok env) kwargs with
  | Ok env' => ∀ name, name ∉ kwargs.*1 → env' !! name = env !! name
  | Raise e => ∃ msg, e = TypeError msg
  end.
Proof.
  revert env. induction kwargs as [|[key v] kwargs IH]; intros env; [done|].
  cbn [foldl]. rewrite bind_keyword_Ok. case_bool_decide.
  - destruct (env !! key) eqn:Hkey.
    + rewrite foldl_bind_keyword_Raise. by eexists.
    + specialize (IH (<[key := v]> env)).
      destruct (foldl _ _ kwargs) as [env'|e]; [|done].
      intros name [Hne Hrest]%not_elem_of_cons. rewrite IH by done.
      by rewrite lookup_insert_ne.
  - rewrite foldl_bind_keyword_Raise. by eexists.
Qed.

Lemma parameter_outcome (env : gmap string value) (name : string) :
  (∃ v, parameter env name = Ok v) ∨ (∃ msg, parameter env name = Raise (TypeError msg)).
Proof. unfold parameter. destruct (_ !! name); [left|right]; by eexists. Qed.

Lemma parameter_unbound (env : gmap string value) (name : string) :
  env !! name = None → defaults !! name = None →
  ∃ msg, parameter env name = Raise (TypeError msg).
Proof.
  intros Henv Hdef. unfold parameter.
  rewrite (proj2 (lookup_union_None env defaults name)) by done. by eexists.
Qed.

Section UnboundParameter.
Context {sdk : OpenAI_SDK} {json : JsonModule}.

(** X7. A call with more than seven positional arguments, or one that
    leaves a required parameter given neither by position nor by keyword,
    raises TypeError, whatever the endpoint would answer. *)
Theorem unbound_parameter_is_a_TypeError (args : list value)
    (kwargs : list (string * value)) :
  7 < length args ∨
  (∃ i name, i < 3 ∧ parameters !! i = Some name ∧ length args ≤ i ∧
     name ∉ kwargs.*1) →
  ∃ msg, call_make_json_query args kwargs = Raise (TypeError msg).
Proof.
  intros [Hmany|(i & name & Hi & Hname & Hargs & Hkw)];
    unfold call_make_json_query, bind_arguments.
  { rewrite bool_decide_eq_false_2 by (cbn; lia). by eexists. }
  rewrite bool_decide_eq_true_2 by (cbn; lia).
  pose proof (foldl_bind_keyword_spec kwargs
    (list_to_map (zip parameters args))) as Hbound.
  destruct (foldl _ _ kwargs) as [env|e]; [|destruct Hbound as [msg ->]; by eexists].
  cbn.
  assert (∃ msg, parameter env name = Raise (TypeError msg)) as [msg Hmissing].
  { apply parameter_unbound.
    - rewrite Hbound by done.
      destruct i as [|[|[|i]]]; [..|lia]; injection Hname as <-;
        destruct args as [|? [|? [|? ?]]]; cbn in Hargs; try lia; done.
    - destruct i as [|[|[|i]]]; [..|lia]; by injection Hname as <-. }
  destruct i as [|[|[|i]]]; [..|lia]; injection Hname as <-.
  - rewrite Hmissing. by eexists.
  - destruct (parameter_outcome env "user_query") as [[? ->]|[? ->]]; cbn;
      [rewrite Hmissing|]; by eexists.
  - destruct (parameter_outcome env "user_query") as [[? ->]|[? ->]]; cbn;
      [|by eexists].
    destruct (parameter_outcome env "textpresso_token") as [[? ->]|[? ->]]; cbn;
      [rewrite Hmissing|]; by eexists.
Qed.

End UnboundParameter.

Lemma unbound_parameter_witness :
  (7 < length [VStr "maize plant height"; VStr "T"] ∨
   ∃ i name, i < 3 ∧ parameters !! i = Some name ∧
     length [VStr "maize plant height"; VStr "T"] ≤ i ∧
     name ∉ [("count", VInt 25)].*1) ∧
  ∃ msg,
    @call_make_json_query (replying scenario_reply) python_json
      [VStr "maize plant height"; VStr "T"] [("count", VInt 25)] =
    Raise (TypeError msg).
Proof.
  assert (7 < length [VStr "maize plant height"; VStr "T"] ∨
    ∃ i name, i < 3 ∧ parameters !! i = Some name ∧
      length [VStr "maize plant height"; VStr "T"] ≤ i ∧
      name ∉ [("count", VInt 25)].*1) as Hunbound.
  { right. exists 2, "openai_token". split; [lia|]. split; [reflexivity|].
    split; [cbn; lia|]. cbn. intros [=]%list_elem_of_singleton. }
  split; [exact Hunbound|].
  exact (unbound_parameter_is_a_TypeError _ _ Hunbound).
Defined.

(** The required parameters may come by keyword: such a call is not
    ill-formed. *)
Example required_by_keyword_example :
  @call_make_json_query (replying scenario_reply) python_json
    [VStr "maize plant height"; VStr "T"] [("openai_token", VStr "sk-model")] =
  Ok (VDict scenario_envelope).
Proof. vm_compute. reflexivity. Qed.
